(** * WeatherBench notebook: baselines and the latitude-weighted RMSE

    A shallow embedding of the evaluation code of [weatherbench.ipynb]:
    the metric [computed_weighted_rmse], the persistence and climatology
    baselines and [get_train_valid_test_dataset].

    Conventions of the embedding.
    - A float64 is a [number]: a real, one of the two infinities, or NaN.
      Rounding, overflow and the sign of zero are abstracted away: finite
      arithmetic is exact arithmetic on [R]. The one constant kept as the
      machine has it is [np.pi], the double [pi64] just below π: the
      conversion to radians multiplies by it, which is why the cosine of
      a pole is a small positive number and not zero.
    - A [datetime64[ns]] timestamp is the integer count of nanoseconds
      since 1970-01-01T00:00, as numpy stores it.
    - An xarray object is its coordinate indexes together with a nested
      list of values, indexed (time, lat, lon).
    - A Python exception is a value of [exn]; code that can raise returns
      a [result]. *)

From Stdlib Require Import Reals Machin Lra Lia ZArith List.
From stdpp Require Import base option list sorting gmap.

Set Default Proof Using "Type".

(** ** Python exceptions and results *)

Inductive exn := ValueError | KeyError.

Inductive result (A : Type) :=
  | Ok (a : A)
  | Raise (e : exn).
Arguments Ok {A} a.
Arguments Raise {A} e.

#[global] Instance result_ret : MRet result := λ A a, Ok a.

#[global] Instance result_bind : MBind result := λ A B k m,
  match m with
  | Ok a => k a
  | Raise e => Raise e
  end.

#[global] Instance result_fmap : FMap result := λ A B f m,
  match m with
  | Ok a => Ok (f a)
  | Raise e => Raise e
  end.

(** ** float64 values, rounding abstracted *)

Module Numpy.

#[local] Open Scope R_scope.

Inductive number :=
  | Fin (r : R)
  | PInf
  | NInf
  | NaN.

Definition is_nan (x : number) : bool :=
  match x with NaN => true | _ => false end.

Definition is_fin (x : number) : bool :=
  match x with Fin _ => true | _ => false end.

(** The infinity with the sign of [x]; [NaN] for zero (0 * inf, 0 / 0). *)
Definition inf_of_sign (x : R) : number :=
  if Rlt_dec 0 x then PInf else if Rlt_dec x 0 then NInf else NaN.

Definition nopp (a : number) : number :=
  match a with
  | Fin x => Fin (- x)
  | PInf => NInf
  | NInf => PInf
  | NaN => NaN
  end.

Definition nadd (a b : number) : number :=
  match a, b with
  | NaN, _ | _, NaN => NaN
  | Fin x, Fin y => Fin (x + y)
  | PInf, NInf | NInf, PInf => NaN
  | PInf, _ | _, PInf => PInf
  | NInf, _ | _, NInf => NInf
  end.

Definition nsub (a b : number) : number := nadd a (nopp b).

Definition nmul (a b : number) : number :=
  match a, b with
  | NaN, _ | _, NaN => NaN
  | Fin x, Fin y => Fin (x * y)
  | Fin x, PInf | PInf, Fin x => inf_of_sign x
  | Fin x, NInf | NInf, Fin x => inf_of_sign (- x)
  | PInf, PInf | NInf, NInf => PInf
  | PInf, NInf | NInf, PInf => NInf
  end.

Definition ndiv (a b : number) : number :=
  match a, b with
  | NaN, _ | _, NaN => NaN
  | Fin x, Fin y => if Req_dec_T y 0 then inf_of_sign x else Fin (x / y)
  | Fin _, _ => Fin 0
  | PInf, Fin y => if Rlt_dec y 0 then NInf else PInf
  | NInf, Fin y => if Rlt_dec y 0 then PInf else NInf
  | _, _ => NaN
  end.

(** [x ** 2] *)
Definition nsquare (a : number) : number := nmul a a.

(** [np.sqrt] *)
Definition nsqrt (a : number) : number :=
  match a with
  | Fin x => if Rlt_dec x 0 then NaN else Fin (sqrt x)
  | PInf => PInf
  | _ => NaN
  end.

(** [np.pi]: the double nearest to π, [0x1.921fb54442d18p+1]. *)
Definition pi64 : R := 884279719003555 / 281474976710656.

(** [np.deg2rad]: the product with [np.pi / 180]. At 90 degrees it is
    [np.pi / 2], as numpy returns it. *)
Definition deg2rad (x : R) : R := x * (pi64 / 180).

Definition nsum (l : list number) : number := foldr nadd (Fin 0) l.

(** Exact sum of reals, for stating what a mean of finite values is. *)
Definition Rsum (xs : list R) : R := foldr Rplus 0 xs.

(** The [skipna] mean xarray applies to floating-point data: NaN entries
    are left out, the rest summed and divided by their count; an empty
    selection gives NaN. *)
Definition nanmean (l : list number) : number :=
  let kept := filter (λ x, is_nan x = false) l in
  match kept with
  | [] => NaN
  | _ => ndiv (nsum kept) (Fin (INR (length kept)))
  end.

(** [std] with [ddof=0] and [skipna]: the root of the mean squared
    deviation from the mean. *)
Definition nanstd (l : list number) : number :=
  let m := nanmean l in
  nsqrt (nanmean (map (λ x, nsquare (nsub x m)) l)).

End Numpy.
Export Numpy.

(** ** Python slices with unit step *)

Module PySlice.

#[local] Open Scope Z_scope.

(** A bound is clipped the way [slice.indices] clips it for a sequence of
    length [n]: negative bounds count from the end. *)
Definition clip (n : Z) (i : Z) : Z :=
  if (i <? 0)%Z then Z.max (i + n) 0 else Z.min i n.

Definition bounds (start stop : option Z) (n : nat) : nat * nat :=
  let lo := clip (Z.of_nat n) (default 0%Z start) in
  let hi := clip (Z.of_nat n) (default (Z.of_nat n) stop) in
  (Z.to_nat lo, Z.to_nat (hi - lo)).

(** [l[start:stop]] *)
Definition slice {A} (start stop : option Z) (l : list A) : list A :=
  let '(lo, len) := bounds start stop (length l) in
  take len (drop lo l).

End PySlice.

(** ** The proleptic Gregorian calendar of [datetime64] *)

Module Calendar.

#[local] Open Scope Z_scope.

Definition ns_per_hour : Z := 3600000000000.
Definition ns_per_day : Z := 24 * ns_per_hour.

(** [np.timedelta64(n, 'D').astype('timedelta64[ns]')] *)
Definition timedelta64_D (n : Z) : Z := n * ns_per_day.

Definition days_of (t : Z) : Z := t / ns_per_day.

(** Day within the 400-year era, counted from 0000-03-01. *)
Definition doe_of_days (z : Z) : Z := (z + 719468) mod 146097.
Definition era_of_days (z : Z) : Z := (z + 719468) / 146097.

Definition yoe_of_doe (doe : Z) : Z :=
  (doe - doe / 1460 + doe / 36524 - doe / 146096) / 365.

(** Day of the year that starts on March 1st, from 0. *)
Definition mdoy_of_doe (doe : Z) : Z :=
  let yoe := yoe_of_doe doe in
  doe - (365 * yoe + yoe / 4 - yoe / 100).

Definition is_leap (y : Z) : bool :=
  ((y mod 4 =? 0) && negb (y mod 100 =? 0) || (y mod 400 =? 0))%Z.

(** First day of year [y] of the era, and the check that the first and
    the last day of [n] consecutive years from [y] on are given their
    year. *)
Definition year_start (y : Z) : Z := 365 * y + y / 4 - y / 100.

Definition year_checked (y : Z) : bool :=
  (yoe_of_doe (year_start y) =? y)
  && (yoe_of_doe (Z.min (year_start (y + 1) - 1) 146095) =? y).

Fixpoint years_checked_from (n : nat) (y : Z) : bool :=
  match n with
  | O => true
  | S n' => year_checked y && years_checked_from n' (y + 1)
  end.

(** Calendar year of a day count. *)
Definition year_of_days (z : Z) : Z :=
  let doe := doe_of_days z in
  let y := yoe_of_doe doe + era_of_days z * 400 in
  if (306 <=? mdoy_of_doe doe)%Z then y + 1 else y.

(** Day of the year, 1 for January 1st; December 31st of a leap year
    is 366. *)
Definition dayofyear_of_days (z : Z) : Z :=
  let mdoy := mdoy_of_doe (doe_of_days z) in
  if (306 <=? mdoy)%Z then mdoy - 305
  else mdoy + 60 + (if is_leap (year_of_days z) then 1 else 0).

(** [time.dt.year] and [time.dt.dayofyear] *)
Definition year (t : Z) : Z := year_of_days (days_of t).
Definition dayofyear (t : Z) : Z := dayofyear_of_days (days_of t).

(** A timestamp from a civil date at midnight, for examples: days since
    the epoch of [y]-[m]-[d]. *)
Definition days_from_civil (y m d : Z) : Z :=
  let y' := if (m <=? 2)%Z then y - 1 else y in
  let era := y' / 400 in
  let yoe := y' - era * 400 in
  let mp := if (m <=? 2)%Z then m + 9 else m - 3 in
  let doy := (153 * mp + 2) / 5 + d - 1 in
  let doe := yoe * 365 + yoe / 4 - yoe / 100 + doy in
  era * 146097 + doe - 719468.

Definition datetime64 (y m d h : Z) : Z :=
  days_from_civil y m d * ns_per_day + h * ns_per_hour.

End Calendar.

(** ** xarray objects over (time, lat, lon) *)

Module Xarray.

#[global] Instance R_eq_dec : EqDecision R := Req_dec_T.

(** The [z] variable of the dataset with its three indexes. [values] is
    indexed time first, then latitude, then longitude. *)
Record DataArray := mkDataArray {
  time : list Z;
  lat : list R;
  lon : list R;
  values : list (list (list number));
}.

(** The result of [groupby('time.dayofyear')]: the leading dimension is
    [dayofyear]. *)
Record Climatology := mkClimatology {
  dayofyear_idx : list Z;
  clat : list R;
  clon : list R;
  cvalues : list (list (list number));
}.

Section index.
Context {L : Type} `{EqDecision L}.

(** [Index.get_loc]: position of the first occurrence of a label. *)
Fixpoint get_loc (x : L) (idx : list L) : option nat :=
  match idx with
  | [] => None
  | y :: idx' => if decide (x = y) then Some 0 else S <$> get_loc x idx'
  end.

Definition is_unique (idx : list L) : bool := bool_decide (NoDup idx).

(** The index both operands of an arithmetic operation are brought to
    ([arithmetic_join="inner"]). Equal indexes are kept as they are;
    otherwise the labels of the left index that the right one has too,
    in the order of the left. Aligning an index that has duplicate labels
    to a different one raises [ValueError]. *)
Definition join (a b : list L) : result (list L) :=
  if decide (a = b) then Ok a
  else if is_unique a && is_unique b then Ok (list_intersection a b)
  else Raise ValueError.

(** Data along index [idx] picked at the labels [tgt]; a label that
    [idx] does not have gives [fill]. *)
Definition reindex {A} (fill : A) (idx tgt : list L) (data : list A) : list A :=
  map (λ x, match get_loc x idx with
            | Some i => default fill (data !! i)
            | None => fill
            end) tgt.

(** An object is reindexed only when its index differs from the joined
    one. *)
Definition conform {A} (fill : A) (idx tgt : list L) (data : list A) : list A :=
  if decide (idx = tgt) then data else reindex fill idx tgt data.
End index.

Definition nan_row (d : DataArray) : list number :=
  replicate (length (lon d)) NaN.
Definition nan_block (d : DataArray) : list (list number) :=
  replicate (length (lat d)) (nan_row d).

Definition reindex_like (d : DataArray) (t : list Z) (la lo : list R) : DataArray :=
  {| time := t; lat := la; lon := lo;
     values :=
       map (λ block,
              map (λ row, conform NaN (lon d) lo row)
                  (conform (nan_row d) (lat d) la block))
           (conform (nan_block d) (time d) t (values d)) |}.

(** The invariants of a gridded field: the value array has the shape its
    axes give, and no axis repeats a label. *)
Definition shape_ok (d : DataArray) : Prop :=
  length (values d) = length (time d)
  ∧ Forall (λ block, length block = length (lat d)
                     ∧ Forall (λ row, length row = length (lon d)) block)
           (values d).

Definition unique_labels (d : DataArray) : Prop :=
  NoDup (time d) ∧ NoDup (lat d) ∧ NoDup (lon d).

Definition has_finite_value (d : DataArray) : Prop :=
  Exists (Exists (Exists (λ x, is_fin x))) (values d).

Definition has_empty_axis (d : DataArray) : Prop :=
  time d = [] ∨ lat d = [] ∨ lon d = [].

(** [xr.align(d1, d2, join="inner")] *)
Definition align (d1 d2 : DataArray) : result (DataArray * DataArray) :=
  t ← join (time d1) (time d2);
  la ← join (lat d1) (lat d2);
  lo ← join (lon d1) (lon d2);
  mret (reindex_like d1 t la lo, reindex_like d2 t la lo).

(** A binary operator on two objects: align, then apply cell by cell. *)
Definition binary_op (f : number → number → number) (d1 d2 : DataArray)
    : result DataArray :=
  a ← align d1 d2;
  mret {| time := time a.1; lat := lat a.1; lon := lon a.1;
          values := zip_with (zip_with (zip_with f)) (values a.1) (values a.2) |}.

(** An operator with a scalar operand. *)
Definition map_values (f : number → number) (d : DataArray) : DataArray :=
  {| time := time d; lat := lat d; lon := lon d;
     values := map (map (map f)) (values d) |}.

(** All cells, in storage order. *)
Definition flat (d : DataArray) : list number := concat (concat (values d)).

(** [d.sel(time=slice(str(y1), str(y2)))]: the entries whose year lies in
    the closed range, for a time index in increasing order. *)
Definition in_years (ys : Z * Z) (t : Z) : bool :=
  (ys.1 <=? Calendar.year t)%Z && (Calendar.year t <=? ys.2)%Z.

Definition sel_time (ys : Z * Z) (d : DataArray) : DataArray :=
  {| time := filter (λ t, in_years ys t) (time d);
     lat := lat d; lon := lon d;
     values := map snd (filter (λ p, in_years ys p.1) (zip (time d) (values d))) |}.

(** [d.isel(time=slice(start, stop))] *)
Definition isel_time (start stop : option Z) (d : DataArray) : DataArray :=
  {| time := PySlice.slice start stop (time d);
     lat := lat d; lon := lon d;
     values := PySlice.slice start stop (values d) |}.

(** [d['time'] = new_time] on a fresh object *)
Definition assign_time (d : DataArray) (new_time : list Z) : DataArray :=
  {| time := new_time; lat := lat d; lon := lon d; values := values d |}.

(** Cell [(i, j)] of a 2-D block. *)
Definition cell (block : list (list number)) (i j : nat) : number :=
  default NaN (block !! i ≫= (.!! j)).

(** [.mean()] over the leading dimension of a stack of blocks. *)
Definition mean_blocks (nlat nlon : nat) (blocks : list (list (list number)))
    : list (list number) :=
  map (λ i, map (λ j, nanmean (map (λ b, cell b i j) blocks)) (seq 0 nlon))
      (seq 0 nlat).

(** The time entries of [d] whose day of year is [k]. *)
Definition group (k : Z) (d : DataArray) : list (list (list number)) :=
  map snd (filter (λ p, Calendar.dayofyear p.1 = k) (zip (time d) (values d))).

(** [d.groupby('time.dayofyear').mean()]: one block per day of year
    that occurs, labels in increasing order. *)
Definition groupby_dayofyear_mean (d : DataArray) : Climatology :=
  let labels := merge_sort Z.le (remove_dups (map Calendar.dayofyear (time d))) in
  {| dayofyear_idx := labels; clat := lat d; clon := lon d;
     cvalues := map (λ k, mean_blocks (length (lat d)) (length (lon d)) (group k d))
                    labels |}.

(** [c.sel(dayofyear=days)] where [days] is indexed by [times]: one block
    per requested label, [KeyError] for a label the table lacks. *)
Fixpoint lookup_days (c : Climatology) (days : list Z)
    : result (list (list (list number))) :=
  match days with
  | [] => Ok []
  | k :: days' =>
      match get_loc k (dayofyear_idx c) with
      | Some i =>
          rest ← lookup_days c days';
          mret (default [] (cvalues c !! i) :: rest)
      | None => Raise KeyError
      end
  end.

Definition sel_dayofyear (c : Climatology) (times : list Z) : result DataArray :=
  vals ← lookup_days c (map Calendar.dayofyear times);
  mret {| time := times; lat := clat c; lon := clon c; values := vals |}.

(** [.values[..., None]] *)
Definition expand_last (v : list (list (list number)))
    : list (list (list (list number))) :=
  map (map (map (λ x, [x]))) v.

End Xarray.
Export Xarray.

(** ** The notebook *)

Module Notebook.

Definition train_years : Z * Z := (1979, 2015)%Z.
Definition valid_years : Z * Z := (2016, 2016)%Z.
Definition test_years : Z * Z := (2017, 2018)%Z.

(** [np.cos(np.deg2rad(error.lat))], then [weights_lat /= weights_lat.mean()] *)
Definition cos_lat (lats : list R) : list number :=
  map (λ la, Fin (cos (deg2rad la))) lats.

(** The same cosines as reals, for stating properties. *)
Definition cosines (lats : list R) : list R :=
  map (λ la, cos (deg2rad la)) lats.

Definition weights_lat (lats : list R) : list number :=
  let w := cos_lat lats in
  map (λ x, ndiv x (nanmean w)) w.

(** [(error)**2 * weights_lat]: the weight of a latitude multiplies the
    whole row of that latitude, at every time. *)
Definition weighted_squares (w : list number) (error : DataArray)
    : list (list (list number)) :=
  map (λ block,
         zip_with (λ row wl, map (λ e, nmul (nsquare e) wl) row) block w)
      (values error).

(** [fc - gt] once the joined axes are known. *)
Definition error_on (t : list Z) (la lo : list R) (fc gt : DataArray) : DataArray :=
  {| time := t; lat := la; lon := lo;
     values := zip_with (zip_with (zip_with nsub))
                 (values (reindex_like fc t la lo))
                 (values (reindex_like gt t la lo)) |}.

(** The metric, from the line that computes the weights on. *)
Definition rmse_of_error (error : DataArray) : number :=
  let w := weights_lat (lat error) in
  nsqrt (nanmean (concat (concat (weighted_squares w error)))).

Definition computed_weighted_rmse (fc gt : DataArray) : result number :=
  error ← binary_op nsub fc gt;
  let rmse := rmse_of_error error in
  mret rmse.

(** The persistence forecast of a field: all but the last
    [lead_time_steps] entries, relabelled five days later. *)
Definition persistence (field : DataArray) (lead_time_steps : Z) : DataArray :=
  let fc := isel_time (Some 0%Z) (Some (- lead_time_steps)%Z) field in
  assign_time fc (map (λ t, (t + Calendar.timedelta64_D 5)%Z) (time fc)).

Definition lead_time_steps : Z := 10.

Definition persistence_fc (z500 : DataArray) : DataArray :=
  persistence (sel_time test_years z500) lead_time_steps.

Definition target (z500 : DataArray) : DataArray := sel_time test_years z500.

Definition persistence_rmse (z500 : DataArray) : result number :=
  computed_weighted_rmse (persistence_fc z500) (target z500).


Definition clim_fc (c : Climatology) (z500 : DataArray) : result DataArray :=
  sel_dayofyear c (time (sel_time test_years z500)).

Definition clim_rmse (c : Climatology) (z500 : DataArray) : result number :=
  fc ← clim_fc c z500;
  computed_weighted_rmse fc z500.

Record Splits := mkSplits {
  X_train : list (list (list (list number)));
  Y_train : list (list (list (list number)));
  X_valid : list (list (list (list number)));
  Y_valid : list (list (list (list number)));
  X_test : list (list (list (list number)));
  Y_test : list (list (list (list number)));
  mean : number;
  std : number;
}.

Definition X_of (lead_steps : Z) (d : DataArray) :=
  expand_last (values (isel_time None (Some (- lead_steps)%Z) d)).
Definition Y_of (lead_steps : Z) (d : DataArray) :=
  expand_last (values (isel_time (Some lead_steps) None d)).

Definition get_train_valid_test_dataset (lead_steps : Z) (z500_dataset : DataArray)
    : Splits :=
  let train_data := sel_time train_years z500_dataset in
  let valid_data := sel_time valid_years z500_dataset in
  let test_data := sel_time test_years z500_dataset in
  let mean := nanmean (flat train_data) in
  let std := nanstd (flat train_data) in
  let train_data := map_values (λ x, ndiv (nsub x mean) std) train_data in
  let valid_data := map_values (λ x, ndiv (nsub x mean) std) valid_data in
  let test_data := map_values (λ x, ndiv (nsub x mean) std) test_data in
  {| X_train := X_of lead_steps train_data;
     Y_train := Y_of lead_steps train_data;
     X_valid := X_of lead_steps valid_data;
     Y_valid := Y_of lead_steps valid_data;
     X_test := X_of lead_steps test_data;
     Y_test := Y_of lead_steps test_data;
     mean := mean; std := std |}.

End Notebook.
Export Notebook.

(** ** Objects in memory

    [sel] and [isel] give new xarray objects whose variables are views of
    the arrays of the object they were taken from; item assignment changes
    the object it is applied to. The store keeps numpy buffers apart from
    the objects that refer to them, so that sharing is visible. *)

Module Heap.

Inductive buffer :=
  | TimeBuf (ts : list Z)
  | CoordBuf (xs : list R)
  | DataBuf (v : list (list (list number))).

(** A variable: a buffer and the positions it shows along the leading
    axis. *)
Record view := mkView { base : positive; rows : list nat }.

(** A dataset object: its coordinate variables and the data variable. *)
Record dataset := mkDataset {
  v_time : view;
  v_lat : view;
  v_lon : view;
  v_z : view;
}.

Record store := mkStore {
  buffers : gmap positive buffer;
  objects : gmap positive dataset;
}.

Definition M (A : Type) : Type := store → option (A * store).

#[global] Instance M_ret : MRet M := λ A a s, Some (a, s).
#[global] Instance M_bind : MBind M := λ A B k m s,
  match m s with
  | Some (a, s') => k a s'
  | None => None
  end.

Definition new_buffer (b : buffer) : M positive := λ s,
  let l := fresh (dom (buffers s)) in
  Some (l, {| buffers := <[l := b]> (buffers s); objects := objects s |}).

Definition new_object (o : dataset) : M positive := λ s,
  let l := fresh (dom (objects s)) in
  Some (l, {| buffers := buffers s; objects := <[l := o]> (objects s) |}).

Definition get_object (l : positive) : M dataset := λ s,
  (λ o, (o, s)) <$> objects s !! l.

(** In-place update of the object at [l]. *)
Definition set_object (l : positive) (o : dataset) : M unit := λ s,
  match objects s !! l with
  | Some _ => Some ((), {| buffers := buffers s; objects := <[l := o]> (objects s) |})
  | None => None
  end.

Definition pick {A} (r : list nat) (l : list A) : option (list A) :=
  mapM (λ i, l !! i) r.

Definition whole {A} (b : positive) (l : list A) : view :=
  {| base := b; rows := seq 0 (length l) |}.

(** What a variable shows in a store. *)
Definition time_of (s : store) (v : view) : option (list Z) :=
  match buffers s !! base v with
  | Some (TimeBuf ts) => pick (rows v) ts
  | _ => None
  end.

Definition coord_of (s : store) (v : view) : option (list R) :=
  match buffers s !! base v with
  | Some (CoordBuf xs) => pick (rows v) xs
  | _ => None
  end.

Definition data_of (s : store) (v : view) : option (list (list (list number))) :=
  match buffers s !! base v with
  | Some (DataBuf d) => pick (rows v) d
  | _ => None
  end.

(** The field an object denotes, and the field at a location. *)
Definition denote (s : store) (o : dataset) : option DataArray :=
  t ← time_of s (v_time o);
  la ← coord_of s (v_lat o);
  lo ← coord_of s (v_lon o);
  z ← data_of s (v_z o);
  Some {| time := t; lat := la; lon := lo; values := z |}.

Definition load (l : positive) (s : store) : option DataArray :=
  o ← objects s !! l; denote s o.

Definition read_time (v : view) : M (list Z) := λ s,
  (λ ts, (ts, s)) <$> time_of s v.

(** The rows of a view of the time axis that a predicate on the labels
    keeps. *)
Definition keep_rows (P : Z → bool) (ts : list Z) (r : list nat) : list nat :=
  map snd (filter (λ p, P p.1) (zip ts r)).

(** [obj.sel(time=slice(...))]: a new object on the same buffers. *)
Definition ds_sel_time (ys : Z * Z) (l : positive) : M positive :=
  o ← get_object l;
  ts ← read_time (v_time o);
  new_object
    {| v_time := {| base := base (v_time o);
                    rows := keep_rows (in_years ys) ts (rows (v_time o)) |};
       v_lat := v_lat o; v_lon := v_lon o;
       v_z := {| base := base (v_z o);
                 rows := keep_rows (in_years ys) ts (rows (v_z o)) |} |}.

(** [obj.isel(time=slice(start, stop))]: a new object on the same buffers. *)
Definition ds_isel_time (start stop : option Z) (l : positive) : M positive :=
  o ← get_object l;
  new_object
    {| v_time := {| base := base (v_time o);
                    rows := PySlice.slice start stop (rows (v_time o)) |};
       v_lat := v_lat o; v_lon := v_lon o;
       v_z := {| base := base (v_z o);
                 rows := PySlice.slice start stop (rows (v_z o)) |} |}.

(** [obj.time + delta]: a freshly allocated array. *)
Definition ds_time_plus (l : positive) (delta : Z) : M view :=
  o ← get_object l;
  ts ← read_time (v_time o);
  let ts' := map (λ t, (t + delta)%Z) ts in
  b ← new_buffer (TimeBuf ts');
  mret (whole b ts').

(** [obj['time'] = v]: the object at [l] is changed in place. *)
Definition ds_setitem_time (l : positive) (v : view) : M unit :=
  o ← get_object l;
  set_object l {| v_time := v; v_lat := v_lat o; v_lon := v_lon o; v_z := v_z o |}.

(** The persistence cell of the notebook, run on the object [z500]. *)
Definition persistence_cell (z500 : positive) (lead_time_steps : Z) : M positive :=
  test ← ds_sel_time test_years z500;
  persistence_fc ← ds_isel_time (Some 0%Z) (Some (- lead_time_steps)%Z) test;
  shifted ← ds_time_plus persistence_fc (Calendar.timedelta64_D 5);
  _ ← ds_setitem_time persistence_fc shifted;
  mret persistence_fc.

End Heap.

(** ** The metric as the specification words it

    Cell by cell on two arrays of one shape: squared difference times the
    latitude weight [cos(lat) / mean(cos(lat))], mean over all cells, square
    root. Latitudes are in degrees; a degree is [pi64 / 180] radians. *)

Module Spec.

Definition latitude_weights (lats : list R) : list number :=
  let c := map (λ la, Fin (cos (la * pi64 / 180))) lats in
  map (λ x, ndiv x (nanmean c)) c.

Definition squared_error (fc gt : list (list (list number)))
    : list (list (list number)) :=
  zip_with (zip_with (zip_with (λ a b, nsquare (nsub a b)))) fc gt.

Definition weight_rows (w : list number) (block : list (list number))
    : list (list number) :=
  zip_with (λ wl row, map (λ e, nmul e wl) row) w block.

Definition computeWeightedRMSE (lats : list R)
    (fc gt : list (list (list number))) : number :=
  let e := squared_error fc gt in
  let w := latitude_weights lats in
  nsqrt (nanmean (concat (concat (map (weight_rows w) e)))).

(** The rows of labelled data whose label satisfies [P], in the order
    they have. *)
Definition rows_where {L A} (P : L → Prop) `{∀ x, Decision (P x)}
    (idx : list L) (data : list A) : list A :=
  map snd (filter (λ p, P p.1) (zip idx data)).

(** The labels of [a] that [b] has too. *)
Definition common_labels {L} `{EqDecision L} (a b : list L) : list L :=
  filter (.∈ b) a.

(** The part of a field at the labels that [other] has too: the time
    entries at common timestamps, of these the rows at common latitudes,
    of these the cells at common longitudes. *)
Definition common_part (d other : DataArray) : list (list (list number)) :=
  map (λ block, map (λ row, rows_where (.∈ lon other) (lon d) row)
                    (rows_where (.∈ lat other) (lat d) block))
      (rows_where (.∈ time other) (time d) (values d)).

(** The values of cell [(i, j)], row [i] and column [j] of a time
    entry, at the time entries whose timestamp satisfies [P], in time
    order. *)
Definition cells_where (P : Z → Prop) `{∀ t, Decision (P t)}
    (d : DataArray) (i j : nat) : list number :=
  map (λ block, default NaN (block !! i ≫= (.!! j)))
      (rows_where P (time d) (values d)).

End Spec.

(** ** Predictions and further predicates on fields *)

Module Prediction.


(** Each axis is in strictly increasing order. *)
Definition sorted_axes (d : DataArray) : Prop :=
  StronglySorted Z.lt (time d)
  ∧ StronglySorted Rlt (lat d) ∧ StronglySorted Rlt (lon d).

(** [target.isel(time=slice(lead_time_steps, None))] *)
Definition target_from (lead : Z) (z500 : DataArray) : DataArray :=
  isel_time (Some lead) None (target z500).

End Prediction.
Export Prediction.

(** ** A small dataset with training and test years *)

Module Samples.

(** Two entries of 1979 holding 1 and 3, two entries of 2017 holding 5
    and 7, on one grid cell. *)
Definition train_and_test : DataArray :=
  {| time := [Calendar.datetime64 1979 1 1 0; Calendar.datetime64 1979 1 2 0;
              Calendar.datetime64 2017 1 1 0; Calendar.datetime64 2017 1 2 0];
     lat := [0%R]; lon := [0%R];
     values := [[[Fin 1]]; [[Fin 3]]; [[Fin 5]]; [[Fin 7]]] |}.

(** Twelve hourly entries from 2017-01-01T00 on one grid cell, entry [i]
    holding [i]: a dataset of the test years at an hourly cadence. The
    loading cell keeps every time step of the files
    ([isel(time=slice(None, None, 1))]). *)
Definition hourly_2017 : DataArray :=
  {| time := map (λ i, (Calendar.datetime64 2017 1 1 0
                        + i * Calendar.ns_per_hour)%Z)
                 [0; 1; 2; 3; 4; 5; 6; 7; 8; 9; 10; 11]%Z;
     lat := [0%R]; lon := [0%R];
     values := map (λ i, [[Fin (IZR i)]])
                   [0; 1; 2; 3; 4; 5; 6; 7; 8; 9; 10; 11]%Z |}.

(** Seven daily entries from 2017-01-01 on one grid cell, entry [i]
    holding [i]. *)
Definition daily_7 : DataArray :=
  {| time := map (λ i, (Calendar.datetime64 2017 1 1 0
                        + i * Calendar.timedelta64_D 1)%Z)
                 [0; 1; 2; 3; 4; 5; 6]%Z;
     lat := [0%R]; lon := [0%R];
     values := map (λ i, [[Fin (IZR i)]]) [0; 1; 2; 3; 4; 5; 6]%Z |}.

End Samples.
Export Samples.

(** ** Small fields used in examples *)

Module Examples.

#[local] Open Scope Z_scope.

Definition hours (n : Z) : Z := n * Calendar.ns_per_hour.

(** One grid cell at the equator, one time entry. *)
Definition one_cell (t : Z) (v : R) : DataArray :=
  {| time := [t]; lat := [0%R]; lon := [0%R]; values := [[[Fin v]]] |}.

(** One grid cell, two time entries twelve hours apart. *)
Definition two_steps (v0 v1 : R) : DataArray :=
  {| time := [hours 0; hours 12]; lat := [0%R]; lon := [0%R];
     values := [[[Fin v0]]; [[Fin v1]]] |}.

(** A field with no time entry. *)
Definition no_time : DataArray :=
  {| time := []; lat := [0%R]; lon := [0%R]; values := [] |}.

(** Three time steps, latitudes 0 and 60 degrees, two longitudes, the same
    value in every cell. *)
Definition constant_3x2x2 (v : R) : DataArray :=
  {| time := [hours 0; hours 12; hours 24];
     lat := [0%R; 60%R]; lon := [0%R; 180%R];
     values := replicate 3 (replicate 2 (replicate 2 (Fin v))) |}.

(** Twelve hourly entries on one grid cell, entry [i] holding [i]. *)
Definition hourly_12 : DataArray :=
  {| time := map hours [0; 1; 2; 3; 4; 5; 6; 7; 8; 9; 10; 11];
     lat := [0%R]; lon := [0%R];
     values := map (λ i, [[Fin (IZR i)]]) [0; 1; 2; 3; 4; 5; 6; 7; 8; 9; 10; 11] |}.

(** The last entry of 2016 and the first two of 2017 on one grid cell. *)
Definition around_new_year (v0 v1 v2 : R) : DataArray :=
  {| time := [Calendar.datetime64 2016 12 31 12; Calendar.datetime64 2017 1 1 0;
              Calendar.datetime64 2017 1 1 12];
     lat := [0%R]; lon := [0%R];
     values := [[[Fin v0]]; [[Fin v1]]; [[Fin v2]]] |}.

(** A table with the single day 1. *)
Definition new_year_table (v : R) : Climatology :=
  {| dayofyear_idx := [1]; clat := [0%R]; clon := [0%R];
     cvalues := [[[Fin v]]] |}.

(** Twelve entries every twelve hours from 2017-01-01T00 on one grid
    cell, entry [i] holding [i]. *)
Definition half_daily_12 : DataArray :=
  {| time := map (λ i, Calendar.datetime64 2017 1 1 0 + hours (12 * i))
                 [0; 1; 2; 3; 4; 5; 6; 7; 8; 9; 10; 11];
     lat := [0%R]; lon := [0%R];
     values := map (λ i, [[Fin (IZR i)]]) [0; 1; 2; 3; 4; 5; 6; 7; 8; 9; 10; 11] |}.

(** A store in which object 1 is [around_new_year v0 v1 v2], each
    variable showing the whole of a buffer of its own. *)
Definition new_year_store (v0 v1 v2 : R) : Heap.store :=
  let d := around_new_year v0 v1 v2 in
  {| Heap.buffers :=
       <[1%positive := Heap.TimeBuf (time d)]>
         (<[2%positive := Heap.CoordBuf (lat d)]>
            (<[3%positive := Heap.CoordBuf (lon d)]>
               (<[4%positive := Heap.DataBuf (values d)]> ∅)));
     Heap.objects :=
       <[1%positive :=
           {| Heap.v_time := Heap.whole 1%positive (time d);
              Heap.v_lat := Heap.whole 2%positive (lat d);
              Heap.v_lon := Heap.whole 3%positive (lon d);
              Heap.v_z := Heap.whole 4%positive (values d) |}]> ∅ |}.

(** January 1st and 2nd of 1979 and of 1980 on one grid cell. *)
Definition two_years (a1 a2 b1 b2 : R) : DataArray :=
  {| time := [Calendar.datetime64 1979 1 1 0; Calendar.datetime64 1979 1 2 0;
              Calendar.datetime64 1980 1 1 0; Calendar.datetime64 1980 1 2 0];
     lat := [0%R]; lon := [0%R];
     values := [[[Fin a1]]; [[Fin a2]]; [[Fin b1]]; [[Fin b2]]] |}.

End Examples.

Example dayofyear_2017_10_01 :
  Calendar.dayofyear (Calendar.datetime64 2017 10 1 0) = 274%Z
  ∧ Calendar.year (Calendar.datetime64 2017 10 1 0) = 2017%Z.
Proof. split; reflexivity. Qed.

Example dayofyear_2016_12_31 :
  Calendar.dayofyear (Calendar.datetime64 2016 12 31 12) = 366%Z
  ∧ Calendar.dayofyear (Calendar.datetime64 2016 2 29 0) = 60%Z
  ∧ Calendar.dayofyear (Calendar.datetime64 1979 1 1 0) = 1%Z
  ∧ Calendar.year (Calendar.datetime64 1979 1 1 0) = 1979%Z
  ∧ Calendar.year (Calendar.datetime64 2016 12 31 12) = 2016%Z.
Proof. repeat split; reflexivity. Qed.

(** * Properties *)

(** ** Arithmetic on [number] *)

Section numbers.
#[local] Open Scope R_scope.

Lemma filter_not_nan_Fin (xs : list R) :
  filter (λ x, is_nan x = false) (map Fin xs) = map Fin xs.
Proof.
  induction xs as [|x xs IH]; [done|].
  cbn [map]. rewrite filter_cons_True by done. by rewrite IH.
Qed.

Lemma nsum_Fin (xs : list R) : nsum (map Fin xs) = Fin (Rsum xs).
Proof.
  induction xs as [|x xs IH]; [done|].
  cbn [map]. unfold nsum in *. cbn [foldr]. rewrite IH. done.
Qed.

Lemma INR_length_nonzero {A} (l : list A) : l ≠ [] → INR (length l) ≠ 0.
Proof.
  destruct l; [done|]. intros _. apply not_0_INR. done.
Qed.

Lemma ndiv_Fin (x y : R) : y ≠ 0 → ndiv (Fin x) (Fin y) = Fin (x / y).
Proof. intros Hy. unfold ndiv. by destruct (Req_dec_T y 0). Qed.

Lemma nsqrt_Fin (x : R) : 0 <= x → nsqrt (Fin x) = Fin (sqrt x).
Proof. intros Hx. unfold nsqrt. destruct (Rlt_dec x 0); [lra|done]. Qed.

(** The mean of finitely many finite values is their exact average. *)
Lemma nanmean_Fin (xs : list R) :
  xs ≠ [] → nanmean (map Fin xs) = Fin (Rsum xs / INR (length xs)).
Proof.
  intros Hne. unfold nanmean. rewrite filter_not_nan_Fin.
  destruct xs as [|x xs]; [done|].
  cbn [map]. rewrite <- (length_map Fin (x :: xs)).
  change (Fin x :: map Fin xs) with (map Fin (x :: xs)).
  rewrite nsum_Fin, ndiv_Fin; [done|].
  rewrite length_map. by apply INR_length_nonzero.
Qed.

Lemma nanmean_nil : nanmean [] = NaN.
Proof. done. Qed.


Lemma Rsum_nonneg (xs : list R) : Forall (λ x, 0 <= x) xs → 0 <= Rsum xs.
Proof.
  induction 1 as [|x xs Hx _ IH]; cbn; [lra|]. fold (Rsum xs). lra.
Qed.

Lemma Rsum_pos (xs : list R) :
  Forall (λ x, 0 <= x) xs → Exists (λ x, 0 < x) xs → 0 < Rsum xs.
Proof.
  intros Hall Hex. induction Hex as [x xs Hx|x xs Hex IH].
  - apply Forall_cons in Hall as [_ Hall]. apply Rsum_nonneg in Hall.
    cbn. fold (Rsum xs). lra.
  - apply Forall_cons in Hall as [Hx Hall]. specialize (IH Hall).
    cbn. fold (Rsum xs). lra.
Qed.
End numbers.

(** ** Latitude weights *)

Section weights.
#[local] Open Scope R_scope.

Lemma cos_lat_cosines lats : cos_lat lats = map Fin (cosines lats).
Proof. unfold cos_lat, cosines. by rewrite map_map. Qed.

Lemma cosines_nil_inv lats : cosines lats = [] → lats = [].
Proof. by destruct lats. Qed.

Lemma nanmean_cos_lat lats :
  lats ≠ [] →
  nanmean (cos_lat lats) = Fin (Rsum (cosines lats) / INR (length lats)).
Proof.
  intros Hne. rewrite cos_lat_cosines, nanmean_Fin.
  - unfold cosines. by rewrite length_map.
  - intros Hnil. by apply cosines_nil_inv in Hnil.
Qed.

(** With a non-zero mean cosine every weight is finite. *)
Lemma weights_lat_Fin lats m :
  nanmean (cos_lat lats) = Fin m → m ≠ 0 →
  weights_lat lats = map Fin (map (λ c, c / m) (cosines lats)).
Proof.
  intros Hm Hm0. unfold weights_lat. rewrite Hm, cos_lat_cosines, !map_map.
  apply map_ext. intros c. by apply ndiv_Fin.
Qed.

(** The double [np.pi] lies below π: sixteen terms of the arctangent
    series of Machin's formula for 1/3 and 1/7 separate them. *)
Lemma pi64_bounds : 0 < pi64 < PI.
Proof.
  split; [unfold pi64; lra|].
  destruct (PI_2_3_7_ineq 7) as [H _].
  unfold sum_f_R0, tg_alt, PI_2_3_7_tg, Ratan_seq in H.
  simpl in H. unfold pi64. lra.
Qed.

(** From pole to pole, poles included, the cosine the code computes is
    positive. *)
Lemma cos_deg_pos la : -90 <= la <= 90 → 0 < cos (deg2rad la).
Proof.
  intros Hla. destruct pi64_bounds as [H0 H1].
  apply cos_gt_0; unfold deg2rad; nra.
Qed.

Lemma mean_cos_pos lats :
  lats ≠ [] → Forall (λ la, -90 <= la <= 90) lats →
  ∃ m, nanmean (cos_lat lats) = Fin m ∧ 0 < m.
Proof.
  intros Hne Hall.
  eexists. split; [by apply nanmean_cos_lat|].
  apply Rdiv_lt_0_compat.
  - apply Rsum_pos; unfold cosines.
    + apply Forall_map. eapply Forall_impl; [exact Hall|].
      intros la Hla. by apply Rlt_le, cos_deg_pos.
    + destruct Hall as [|la lats Hla _]; [done|].
      apply Exists_cons_hd. by apply cos_deg_pos.
  - destruct lats; [done|]. apply lt_0_INR. cbn. lia.
Qed.

End weights.



Lemma cos_deg_0 : cos (deg2rad 0) = 1%R.
Proof. unfold deg2rad. rewrite Rmult_0_l. apply cos_0. Qed.

(** On an axis that holds a pole only, the single weight is 1. *)
Example weights_lat_pole : weights_lat [90%R] = [Fin 1].
Proof.
  pose proof (cos_deg_pos 90 ltac:(lra)) as Hpos.
  assert (nanmean (cos_lat [90%R]) = Fin (cos (deg2rad 90))) as Hm.
  { rewrite nanmean_cos_lat by done. cbn. f_equal. field. }
  rewrite (weights_lat_Fin _ _ Hm) by lra.
  cbn. do 2 f_equal. field. lra.
Qed.

(** ** Alignment *)

Section alignment.
Context {L : Type} `{EqDecision L}.

Lemma join_same (a : list L) : join a a = Ok a.
Proof. unfold join. by rewrite decide_True. Qed.

Lemma list_intersection_subseteq (a b : list L) :
  a ⊆ b → list_intersection a b = a.
Proof.
  induction a as [|x a IH]; [done|]. intros Hsub. cbn.
  destruct (decide_rel elem_of x b) as [_|Hx].
  - f_equal. apply IH. intros y Hy. apply Hsub. by right.
  - exfalso. apply Hx, Hsub. left.
Qed.

Lemma list_intersection_nil_r (a : list L) : list_intersection a [] = [].
Proof.
  induction a as [|x a IH]; [done|]. cbn.
  destruct (decide_rel elem_of x []) as [Hx|_]; [|done].
  by apply elem_of_nil in Hx.
Qed.

(** With unique labels the joined index is the common labels, in the
    order of the left operand; nothing is raised. *)
Lemma join_unique (a b : list L) :
  NoDup a → NoDup b → join a b = Ok (list_intersection a b).
Proof.
  intros Ha Hb. unfold join, is_unique. destruct (decide (a = b)) as [<-|Hne].
  - by rewrite list_intersection_subseteq.
  - by rewrite !bool_decide_eq_true_2.
Qed.

Lemma join_duplicates (a b : list L) :
  a ≠ b → ¬ (NoDup a ∧ NoDup b) → join a b = Raise ValueError.
Proof.
  intros Hne Hdup. unfold join, is_unique. rewrite decide_False by done.
  destruct (bool_decide (NoDup a)) eqn:Ea, (bool_decide (NoDup b)) eqn:Eb;
    try done.
  exfalso. apply Hdup. split; by eapply bool_decide_eq_true_1.
Qed.

Lemma conform_same {A} (fill : A) (idx : list L) (data : list A) :
  conform fill idx idx data = data.
Proof. unfold conform. by rewrite decide_True. Qed.

Lemma length_reindex {A} (fill : A) (idx tgt : list L) (data : list A) :
  length (reindex fill idx tgt data) = length tgt.
Proof. unfold reindex. by rewrite length_map. Qed.

Lemma length_conform {A} (fill : A) (idx tgt : list L) (data : list A) :
  length data = length idx → length (conform fill idx tgt data) = length tgt.
Proof.
  intros Hlen. unfold conform. destruct (decide (idx = tgt)) as [<-|_];
    [done|apply length_reindex].
Qed.

(** What a reindexed array holds is taken from the data or is the fill. *)
Lemma elem_of_conform {A} (fill : A) (idx tgt : list L) (data : list A) x :
  x ∈ conform fill idx tgt data → x ∈ data ∨ x = fill.
Proof.
  unfold conform, reindex. destruct (decide (idx = tgt)); [by left|].
  intros (l & -> & _)%list_elem_of_fmap.
  destruct (get_loc l idx) as [i|]; [|by right].
  destruct (data !! i) as [y|] eqn:E; [|by right].
  left. by eapply list_elem_of_lookup_2.
Qed.

(** For a unique index the position of a label is the position it was
    zipped at. *)
Lemma get_loc_zip {A} (idx : list L) (data : list A) x v :
  NoDup idx → (x, v) ∈ zip idx data →
  ∃ i, get_loc x idx = Some i ∧ data !! i = Some v.
Proof.
  intros Hnd. revert data. induction Hnd as [|y idx Hy Hnd IH];
    intros [|w data] Hin; try by apply elem_of_nil in Hin.
  cbn in Hin. apply elem_of_cons in Hin as [[= -> ->]|Hin].
  - exists 0. cbn. by rewrite decide_True.
  - destruct (IH _ Hin) as (i & Hloc & Hdat). exists (S i). cbn.
    rewrite decide_False.
    + by rewrite Hloc.
    + intros ->. apply Hy. by apply elem_of_zip_l in Hin.
Qed.

Lemma reindex_zip {A} (fill : A) (idx : list L) (data : list A)
    (sub : list (L * A)) :
  NoDup idx → sub ⊆ zip idx data →
  reindex fill idx (map fst sub) data = map snd sub.
Proof.
  intros Hnd Hsub. unfold reindex. rewrite map_map.
  apply map_ext_in. intros [x v] Hin. cbn.
  apply list_elem_of_In in Hin.
  destruct (get_loc_zip idx data x v Hnd (Hsub _ Hin)) as (i & -> & ->).
  done.
Qed.

Lemma fst_filter_zip {A} (P : L → Prop) `{∀ x, Decision (P x)}
    (idx : list L) (data : list A) :
  length idx = length data →
  map fst (filter (λ p, P p.1) (zip idx data)) = filter P idx.
Proof.
  revert data. induction idx as [|x idx IH]; intros [|v data] Hlen;
    try done.
  cbn [zip zip_with]. rewrite !filter_cons. cbn.
  destruct (decide (P x)); cbn; rewrite IH; auto.
Qed.

Lemma filter_zip_all {A} (P : L → Prop) `{∀ x, Decision (P x)}
    (idx : list L) (data : list A) :
  length idx = length data → filter P idx = idx →
  map snd (filter (λ p, P p.1) (zip idx data)) = data.
Proof.
  intros Hlen Hall.
  assert (Forall P idx) as HP.
  { rewrite <- Hall. apply Forall_forall. intros x Hx.
    by apply list_elem_of_filter in Hx as [? _]. }
  clear Hall. revert data Hlen.
  induction HP as [|x idx Hx HP IH]; intros [|v data] Hlen; try done.
  cbn [zip zip_with]. rewrite filter_cons_True by done. cbn.
  f_equal. apply IH. by injection Hlen.
Qed.

(** Reindexing to the labels a predicate keeps is selecting the rows of
    those labels. *)
Lemma conform_filter {A} (P : L → Prop) `{∀ x, Decision (P x)}
    (fill : A) (idx : list L) (data : list A) :
  NoDup idx → length idx = length data →
  conform fill idx (filter P idx) data
  = map snd (filter (λ p, P p.1) (zip idx data)).
Proof.
  intros Hnd Hlen. unfold conform.
  destruct (decide (idx = filter P idx)) as [E|_].
  - symmetry. by apply filter_zip_all.
  - rewrite <- (fst_filter_zip P idx data Hlen).
    apply reindex_zip; [done|]. intros p Hp.
    by apply list_elem_of_filter in Hp as [_ ?].
Qed.
End alignment.

(** ** The metric *)

Section metric.

Lemma binary_op_joined f fc gt t la lo :
  join (time fc) (time gt) = Ok t →
  join (lat fc) (lat gt) = Ok la →
  join (lon fc) (lon gt) = Ok lo →
  binary_op f fc gt
  = Ok {| time := t; lat := la; lon := lo;
          values := zip_with (zip_with (zip_with f))
                      (values (reindex_like fc t la lo))
                      (values (reindex_like gt t la lo)) |}.
Proof.
  intros Ht Hla Hlo. unfold binary_op, align. rewrite Ht, Hla, Hlo. done.
Qed.

Lemma rmse_joined fc gt t la lo :
  join (time fc) (time gt) = Ok t →
  join (lat fc) (lat gt) = Ok la →
  join (lon fc) (lon gt) = Ok lo →
  computed_weighted_rmse fc gt = Ok (rmse_of_error (error_on t la lo fc gt)).
Proof.
  intros Ht Hla Hlo. unfold computed_weighted_rmse.
  by rewrite (binary_op_joined _ _ _ t la lo).
Qed.

Lemma values_reindex_like_same d :
  values (reindex_like d (time d) (lat d) (lon d)) = values d.
Proof.
  unfold reindex_like. cbn. rewrite conform_same.
  rewrite <- (map_id (values d)) at 2. apply map_ext. intros block.
  rewrite conform_same. rewrite <- (map_id block) at 2.
  apply map_ext. intros row. by rewrite conform_same.
Qed.

(** Reindexing along time only. *)
Lemma values_reindex_like_time d t :
  values (reindex_like d t (lat d) (lon d))
  = conform (nan_block d) (time d) t (values d).
Proof.
  unfold reindex_like. cbn.
  rewrite <- (map_id (conform _ _ _ _)) at 2. apply map_ext. intros block.
  rewrite conform_same. rewrite <- (map_id block) at 2.
  apply map_ext. intros row. by rewrite conform_same.
Qed.

Lemma weights_lat_spec lats : weights_lat lats = Spec.latitude_weights lats.
Proof.
  unfold weights_lat, Spec.latitude_weights, cos_lat, deg2rad.
  assert (map (λ la, Fin (cos (la * (pi64 / 180)))) lats
          = map (λ la, Fin (cos (la * pi64 / 180))) lats) as ->; [|done].
  apply map_ext. intros la. do 2 f_equal. unfold Rdiv. ring.
Qed.

Lemma weighted_row_spec wl (rf rg : list number) :
  map (λ e, nmul (nsquare e) wl) (zip_with nsub rf rg)
  = map (λ e, nmul e wl) (zip_with (λ a b, nsquare (nsub a b)) rf rg).
Proof.
  revert rg. induction rf as [|a rf IH]; intros [|b rg]; try done.
  cbn. by rewrite IH.
Qed.

Lemma weighted_block_spec w (bf bg : list (list number)) :
  zip_with (λ row wl, map (λ e, nmul (nsquare e) wl) row)
           (zip_with (zip_with nsub) bf bg) w
  = Spec.weight_rows w
      (zip_with (zip_with (λ a b, nsquare (nsub a b))) bf bg).
Proof.
  unfold Spec.weight_rows. revert bg w.
  induction bf as [|rf bf IH]; intros [|rg bg] [|wl w]; try done.
  cbn. by rewrite IH, weighted_row_spec.
Qed.

Lemma weighted_squares_spec w t la lo (vf vg : list (list (list number))) :
  weighted_squares w
    {| time := t; lat := la; lon := lo;
       values := zip_with (zip_with (zip_with nsub)) vf vg |}
  = map (Spec.weight_rows w) (Spec.squared_error vf vg).
Proof.
  unfold weighted_squares, Spec.squared_error. cbn.
  revert vg. induction vf as [|bf vf IH]; intros [|bg vg]; try done.
  cbn. by rewrite IH, weighted_block_spec.
Qed.
End metric.

(** ** Squared differences and indexes in increasing order *)

Section symmetry.

Lemma zip_with_sym {A B} (h : A → A → B) (l k : list A) :
  (∀ a b, h a b = h b a) → zip_with h l k = zip_with h k l.
Proof.
  intros Hh. revert k. induction l as [|a l IH]; intros [|b k]; try done.
  cbn. by rewrite Hh, IH.
Qed.

Lemma squared_difference_sym (a b : number) :
  nsquare (nsub a b) = nsquare (nsub b a).
Proof.
  destruct a as [x| | |], b as [y| | |]; try done.
  cbn. f_equal. ring.
Qed.

Lemma squared_error_sym (A B : list (list (list number))) :
  Spec.squared_error A B = Spec.squared_error B A.
Proof.
  unfold Spec.squared_error. apply zip_with_sym. intros b1 b2.
  apply zip_with_sym. intros r1 r2. apply zip_with_sym.
  apply squared_difference_sym.
Qed.

(** The metric of an aligned difference, in the words of the
    specification. *)
Lemma rmse_of_error_spec t la lo (A B : list (list (list number))) :
  rmse_of_error {| time := t; lat := la; lon := lo;
                   values := zip_with (zip_with (zip_with nsub)) A B |}
  = Spec.computeWeightedRMSE la A B.
Proof.
  unfold rmse_of_error, Spec.computeWeightedRMSE. cbn [lat].
  by rewrite weighted_squares_spec, weights_lat_spec.
Qed.

Lemma StronglySorted_NoDup {L} (R : relation L) (l : list L) :
  (∀ x, ¬ R x x) → StronglySorted R l → NoDup l.
Proof.
  intros Hirr. induction 1 as [|x l _ IH Hall]; constructor; [|done].
  intros Hin. apply (Hirr x).
  by apply (proj1 (Forall_forall _ _) Hall).
Qed.

Lemma StronglySorted_list_intersection {L} `{EqDecision L}
    (R : relation L) (a b : list L) :
  StronglySorted R a → StronglySorted R (list_intersection a b).
Proof.
  induction 1 as [|x a _ IH Hall]; cbn; [constructor|].
  destruct (decide_rel elem_of x b); [|done].
  constructor; [done|]. by apply Forall_list_intersection.
Qed.

(** For indexes in strictly increasing order the common labels do not
    depend on which operand comes first. *)
Lemma list_intersection_sorted_comm {L} `{EqDecision L}
    (R : relation L) (a b : list L) :
  (∀ x y, R x y → R y x → False) →
  StronglySorted R a → StronglySorted R b →
  list_intersection a b = list_intersection b a.
Proof.
  intros Hasym Ha Hb.
  assert (∀ x, ¬ R x x) as Hirr by (intros x Hx; by apply (Hasym x x)).
  apply (StronglySorted_unique_strong R).
  - intros x y _ _ Hxy Hyx. by destruct (Hasym x y).
  - by apply StronglySorted_list_intersection.
  - by apply StronglySorted_list_intersection.
  - apply NoDup_Permutation.
    + apply NoDup_list_intersection. by apply (StronglySorted_NoDup R).
    + apply NoDup_list_intersection. by apply (StronglySorted_NoDup R).
    + intros x. rewrite !list_elem_of_intersection. tauto.
Qed.

Lemma sorted_axes_unique d : sorted_axes d → unique_labels d.
Proof.
  intros (Ht & Hla & Hlo). split; [|split].
  - apply (StronglySorted_NoDup Z.lt); [intros x; lia|done].
  - apply (StronglySorted_NoDup Rlt); [intros x; lra|done].
  - apply (StronglySorted_NoDup Rlt); [intros x; lra|done].
Qed.
End symmetry.

Lemma rmse_identical_axes (fc gt : DataArray) :
  time fc = time gt → lat fc = lat gt → lon fc = lon gt →
  computed_weighted_rmse fc gt
  = Ok (Spec.computeWeightedRMSE (lat fc) (values fc) (values gt)).
Proof.
  intros Ht Hla Hlo.
  rewrite (rmse_joined fc gt (time fc) (lat fc) (lon fc))
    by (rewrite <- ?Ht, <- ?Hla, <- ?Hlo; apply join_same).
  f_equal. unfold rmse_of_error, error_on, Spec.computeWeightedRMSE.
  rewrite values_reindex_like_same.
  rewrite Ht, Hla, Hlo, values_reindex_like_same.
  cbn [lat]. by rewrite weighted_squares_spec, weights_lat_spec.
Qed.

(** C1, as the code has it. For two fields whose time, latitude and
    longitude axes are identical, [computed_weighted_rmse] returns what the
    specification describes: the square root of the mean over all cells of
    the squared difference times [cos(lat) / mean(cos(lat))], the weight of
    a latitude applying to every time and longitude. *)
Theorem computed_weighted_rmse_spec (fc gt : DataArray) :
  time fc = time gt → lat fc = lat gt → lon fc = lon gt →
  computed_weighted_rmse fc gt
  = Ok (Spec.computeWeightedRMSE (lat fc) (values fc) (values gt)).
Proof. apply rmse_identical_axes. Qed.

Lemma computed_weighted_rmse_spec_witness :
  computed_weighted_rmse (Examples.constant_3x2x2 0) (Examples.constant_3x2x2 1)
  = Ok (Spec.computeWeightedRMSE [0; 60]%R
          (values (Examples.constant_3x2x2 0))
          (values (Examples.constant_3x2x2 1))).
Proof.
  apply (computed_weighted_rmse_spec (Examples.constant_3x2x2 0)
           (Examples.constant_3x2x2 1)); reflexivity.
Defined.

Lemma weights_lat_equator : weights_lat [0%R] = [Fin 1].
Proof.
  assert (nanmean (cos_lat [0%R]) = Fin 1) as Hm.
  { rewrite nanmean_cos_lat by done. cbn. rewrite cos_deg_0.
    f_equal. field. }
  rewrite (weights_lat_Fin _ 1 Hm) by lra.
  cbn. rewrite cos_deg_0. do 2 f_equal. field.
Qed.

Lemma nsqrt_nanmean_single (x y : R) :
  (x = y * y)%R → (0 <= y)%R → nsqrt (nanmean [Fin x]) = Fin y.
Proof.
  intros -> Hy. change [Fin (y * y)] with (map Fin [(y * y)%R]).
  rewrite nanmean_Fin by done.
  replace (Rsum [(y * y)%R] / INR (length [(y * y)%R]))%R with (y * y)%R
    by (cbn; field).
  rewrite nsqrt_Fin by nra. f_equal. by apply sqrt_square.
Qed.

Lemma rmse_of_error_no_values t la lo :
  rmse_of_error {| time := t; lat := la; lon := lo; values := [] |} = NaN.
Proof. done. Qed.

(** C1 as stated fails when the time axes have one length but different
    labels: the two entries are not paired, no label is common, and the
    result is NaN, where the formula over paired cells gives 1. *)
Lemma computed_weighted_rmse_equal_length_counterexample :
  let fc := Examples.one_cell 0 1 in
  let gt := Examples.one_cell (Examples.hours 12) 0 in
  lat fc = lat gt ∧ lon fc = lon gt
  ∧ length (time fc) = length (time gt)
  ∧ computed_weighted_rmse fc gt = Ok NaN
  ∧ Spec.computeWeightedRMSE (lat fc) (values fc) (values gt) = Fin 1
  ∧ computed_weighted_rmse fc gt
    ≠ Ok (Spec.computeWeightedRMSE (lat fc) (values fc) (values gt)).
Proof.
  intros fc gt.
  assert (computed_weighted_rmse fc gt = Ok NaN) as Hcode.
  { rewrite (rmse_joined fc gt [] [0%R] [0%R]);
      [done|done|apply join_same..]. }
  assert (Spec.computeWeightedRMSE (lat fc) (values fc) (values gt) = Fin 1)
    as Hspec.
  { unfold Spec.computeWeightedRMSE, fc, gt, Examples.one_cell.
    cbn [lat values]. rewrite <- weights_lat_spec, weights_lat_equator.
    cbn. apply nsqrt_nanmean_single; [field|lra]. }
  repeat split; try done. rewrite Hcode, Hspec. done.
Qed.

(** ** Shapes and empty selections *)

Section shapes.

Lemma shape_ok_reindex_like d t la lo :
  shape_ok d → shape_ok (reindex_like d t la lo).
Proof.
  intros [Hlen Hblocks]. unfold shape_ok, reindex_like. cbn.
  split.
  - rewrite length_map. by apply length_conform.
  - apply Forall_map, Forall_forall. intros block Hblock. cbn.
    assert (length block = length (lat d)
            ∧ Forall (λ row, length row = length (lon d)) block)
      as [Hb Hrows].
    { apply elem_of_conform in Hblock as [Hin| ->].
      - by apply (proj1 (Forall_forall _ _) Hblocks).
      - unfold nan_block, nan_row. rewrite length_replicate.
        split; [done|]. apply Forall_replicate, length_replicate. }
    split.
    + rewrite length_map. by apply length_conform.
    + apply Forall_map, Forall_forall. intros row Hrow. cbn.
      apply length_conform.
      apply elem_of_conform in Hrow as [Hin| ->].
      * by apply (proj1 (Forall_forall _ _) Hrows).
      * unfold nan_row. apply length_replicate.
Qed.

Lemma concat_concat_nil {A} (W : list (list (list A))) :
  Forall (Forall (λ row, row = [])) W → concat (concat W) = [].
Proof.
  induction 1 as [|b W Hb _ IH]; [done|].
  cbn. rewrite concat_app, IH, app_nil_r.
  clear IH. induction Hb as [|r b -> _ IH]; [done|]. done.
Qed.

(** Without a time entry, a latitude or a longitude there is no cell to
    average. *)
Lemma weighted_cells_nil w e1 e2 t la lo :
  shape_ok e1 → has_empty_axis e1 →
  concat (concat (weighted_squares w
    {| time := t; lat := la; lon := lo;
       values := zip_with (zip_with (zip_with nsub)) (values e1) (values e2) |}))
  = [].
Proof.
  intros [Hlen Hblocks] Hempty. apply concat_concat_nil.
  unfold weighted_squares. cbn [values].
  destruct Hempty as [Ht|[Hla|Hlo]].
  - rewrite Ht in Hlen. apply nil_length_inv in Hlen. by rewrite Hlen.
  - rewrite Hla in Hblocks. clear Hlen.
    generalize (values e2) as v2.
    induction Hblocks as [|b v1 [Hb _] _ IH]; intros [|b2 v2]; cbn;
      try by constructor.
    constructor; [|apply IH].
    apply nil_length_inv in Hb. by rewrite Hb.
  - rewrite Hlo in Hblocks. clear Hlen.
    generalize (values e2) as v2.
    induction Hblocks as [|b v1 [_ Hb] _ IH]; intros [|b2 v2]; cbn;
      try by constructor.
    constructor; [|apply IH]. clear IH.
    revert b2 w. induction Hb as [|r b Hr _ IH]; intros [|r2 b2] [|wl w];
      cbn; try by constructor.
    constructor; [|apply IH].
    apply nil_length_inv in Hr. by rewrite Hr.
Qed.

Lemma rmse_of_error_empty t la lo fc gt :
  shape_ok fc → t = [] ∨ la = [] ∨ lo = [] →
  rmse_of_error (error_on t la lo fc gt) = NaN.
Proof.
  intros Hshape Hempty. unfold rmse_of_error, error_on.
  rewrite (weighted_cells_nil _ (reindex_like fc t la lo)); [done|..].
  - by apply shape_ok_reindex_like.
  - exact Hempty.
Qed.
End shapes.

(** ** The part two fields have in common *)

Section overlap.

Lemma list_intersection_filter {L} `{EqDecision L} (a b : list L) :
  list_intersection a b = filter (.∈ b) a.
Proof.
  induction a as [|x a IH]; [done|].
  rewrite filter_cons. cbn [list_intersection]. rewrite IH.
  destruct (decide_rel elem_of x b), (decide (x ∈ b)); done.
Qed.

Lemma elem_of_rows_where {L A} (P : L → Prop) `{∀ x, Decision (P x)}
    (idx : list L) (data : list A) x :
  x ∈ Spec.rows_where P idx data → x ∈ data.
Proof.
  unfold Spec.rows_where. intros ([l y] & -> & Hin)%list_elem_of_fmap.
  apply list_elem_of_filter in Hin as [_ Hin]. by apply elem_of_zip_r in Hin.
Qed.

(** Reindexing to the labels a predicate keeps gives the rows of those
    labels. *)
Lemma conform_rows_where {L} `{EqDecision L} {A} (P : L → Prop)
    `{∀ x, Decision (P x)} (fill : A) (idx : list L) (data : list A) :
  NoDup idx → length data = length idx →
  conform fill idx (filter P idx) data = Spec.rows_where P idx data.
Proof. intros Hnd Hlen. by apply conform_filter. Qed.

Lemma values_reindex_like_filter d (Pt : Z → Prop) (Pla Plo : R → Prop)
    `{∀ x, Decision (Pt x)} `{∀ x, Decision (Pla x)}
    `{∀ x, Decision (Plo x)} :
  shape_ok d → unique_labels d →
  values (reindex_like d (filter Pt (time d)) (filter Pla (lat d))
            (filter Plo (lon d)))
  = map (λ block, map (λ row, Spec.rows_where Plo (lon d) row)
                      (Spec.rows_where Pla (lat d) block))
        (Spec.rows_where Pt (time d) (values d)).
Proof.
  intros [Hlen Hblocks] (Ht & Hla & Hlo). unfold reindex_like. cbn [values].
  rewrite conform_rows_where by done.
  apply map_ext_in. intros block Hb. apply list_elem_of_In in Hb.
  apply elem_of_rows_where in Hb.
  apply (proj1 (Forall_forall _ _) Hblocks) in Hb as [Hbl Hrows].
  rewrite conform_rows_where by done.
  apply map_ext_in. intros row Hr. apply list_elem_of_In in Hr.
  apply elem_of_rows_where in Hr.
  apply (proj1 (Forall_forall _ _) Hrows) in Hr.
  by rewrite conform_rows_where.
Qed.

(** For indexes in increasing order the joined index is the common
    labels, whichever operand they are read from. *)
Lemma join_sorted {L} `{EqDecision L} (R : relation L) (a b : list L) :
  (∀ x y, R x y → R y x → False) →
  StronglySorted R a → StronglySorted R b →
  join a b = Ok (filter (.∈ b) a) ∧ filter (.∈ b) a = filter (.∈ a) b.
Proof.
  intros Hasym Ha Hb.
  assert (∀ x, ¬ R x x) as Hirr by (intros x Hx; by apply (Hasym x x)).
  split.
  - rewrite join_unique by by apply (StronglySorted_NoDup R).
    by rewrite list_intersection_filter.
  - rewrite <- !list_intersection_filter.
    by apply (list_intersection_sorted_comm R).
Qed.

(** The metric of two fields with axes in increasing order is the formula
    of the specification on the parts of the two fields at their common
    labels. *)
Lemma rmse_overlap (fc gt : DataArray) :
  shape_ok fc → shape_ok gt → sorted_axes fc → sorted_axes gt →
  computed_weighted_rmse fc gt
  = Ok (Spec.computeWeightedRMSE (Spec.common_labels (lat fc) (lat gt))
          (Spec.common_part fc gt) (Spec.common_part gt fc)).
Proof.
  intros Hs1 Hs2 Hfc Hgt.
  pose proof (sorted_axes_unique _ Hfc) as Hu1.
  pose proof (sorted_axes_unique _ Hgt) as Hu2.
  destruct Hfc as (Hst1 & Hsla1 & Hslo1), Hgt as (Hst2 & Hsla2 & Hslo2).
  destruct (join_sorted Z.lt (time fc) (time gt)) as [Jt Et];
    [intros; lia|done..|].
  destruct (join_sorted Rlt (lat fc) (lat gt)) as [Jla Ela];
    [intros; lra|done..|].
  destruct (join_sorted Rlt (lon fc) (lon gt)) as [Jlo Elo];
    [intros; lra|done..|].
  rewrite (rmse_joined fc gt _ _ _ Jt Jla Jlo). f_equal. unfold error_on.
  rewrite (values_reindex_like_filter fc) by done.
  rewrite Et, Ela, Elo.
  rewrite (values_reindex_like_filter gt) by done.
  rewrite <- Ela. apply rmse_of_error_spec.
Qed.

(** Along time only, for two fields on one grid. *)
Lemma rmse_time_overlap (fc gt : DataArray) :
  shape_ok fc → shape_ok gt →
  StronglySorted Z.lt (time fc) → StronglySorted Z.lt (time gt) →
  lat fc = lat gt → lon fc = lon gt →
  computed_weighted_rmse fc gt
  = Ok (Spec.computeWeightedRMSE (lat gt)
          (Spec.rows_where (.∈ time gt) (time fc) (values fc))
          (Spec.rows_where (.∈ time fc) (time gt) (values gt))).
Proof.
  intros [Hl1 _] [Hl2 _] Hst1 Hst2 Hla Hlo.
  destruct (join_sorted Z.lt (time fc) (time gt)) as [Jt Et];
    [intros; lia|done..|].
  assert (NoDup (time fc)) as Hn1
    by (apply (StronglySorted_NoDup Z.lt); [intros x; lia|done]).
  assert (NoDup (time gt)) as Hn2
    by (apply (StronglySorted_NoDup Z.lt); [intros x; lia|done]).
  rewrite (rmse_joined fc gt _ (lat gt) (lon gt) Jt)
    by (rewrite ?Hla, ?Hlo; apply join_same).
  f_equal. unfold error_on.
  assert (values (reindex_like fc (filter (.∈ time gt) (time fc))
                    (lat gt) (lon gt))
          = Spec.rows_where (.∈ time gt) (time fc) (values fc)) as ->.
  { rewrite <- Hla, <- Hlo, values_reindex_like_time.
    by apply conform_rows_where. }
  assert (values (reindex_like gt (filter (.∈ time gt) (time fc))
                    (lat gt) (lon gt))
          = Spec.rows_where (.∈ time fc) (time gt) (values gt)) as ->.
  { rewrite values_reindex_like_time, Et. by apply conform_rows_where. }
  apply rmse_of_error_spec.
Qed.
End overlap.

(** C3, as the code has it. [computed_weighted_rmse] checks neither shapes
    nor emptiness. On well-formed fields it raises nothing and returns a
    number. For axes in increasing order the number is the formula of the
    specification on the parts of the two fields at the labels they have
    in common, the other entries being left out; and when some axis has
    no common label, in particular when an input has an axis without
    entries, the number is NaN. *)
Theorem computed_weighted_rmse_never_raises (fc gt : DataArray) :
  shape_ok fc → shape_ok gt → unique_labels fc → unique_labels gt →
  ∃ v, computed_weighted_rmse fc gt = Ok v
       ∧ (sorted_axes fc → sorted_axes gt →
          v = Spec.computeWeightedRMSE
                (Spec.common_labels (lat fc) (lat gt))
                (Spec.common_part fc gt) (Spec.common_part gt fc))
       ∧ (list_intersection (time fc) (time gt) = []
          ∨ list_intersection (lat fc) (lat gt) = []
          ∨ list_intersection (lon fc) (lon gt) = [] → v = NaN)
       ∧ (has_empty_axis fc ∨ has_empty_axis gt → v = NaN).
Proof.
  intros Hfc Hgt (Ht1 & Hla1 & Hlo1) (Ht2 & Hla2 & Hlo2).
  eexists. split.
  { apply rmse_joined; by apply join_unique. }
  split.
  { intros Hs1 Hs2. pose proof (rmse_overlap fc gt Hfc Hgt Hs1 Hs2) as E.
    rewrite (rmse_joined fc gt _ _ _ (join_unique _ _ Ht1 Ht2)
               (join_unique _ _ Hla1 Hla2) (join_unique _ _ Hlo1 Hlo2)) in E.
    by injection E. }
  assert (list_intersection (time fc) (time gt) = []
          ∨ list_intersection (lat fc) (lat gt) = []
          ∨ list_intersection (lon fc) (lon gt) = []
          → rmse_of_error
              (error_on (list_intersection (time fc) (time gt))
                 (list_intersection (lat fc) (lat gt))
                 (list_intersection (lon fc) (lon gt)) fc gt) = NaN) as Hnil.
  { intros Hempty. by apply rmse_of_error_empty. }
  split; [exact Hnil|].
  intros [Hempty|Hempty]; apply Hnil.
  - destruct Hempty as [-> |[-> | ->]]; auto.
  - destruct Hempty as [-> |[-> | ->]];
      rewrite list_intersection_nil_r; auto.
Qed.

Lemma computed_weighted_rmse_never_raises_witness :
  computed_weighted_rmse (Examples.two_steps 3 5) (Examples.one_cell 0 3)
  = Ok (Spec.computeWeightedRMSE
          (Spec.common_labels (lat (Examples.two_steps 3 5))
             (lat (Examples.one_cell 0 3)))
          (Spec.common_part (Examples.two_steps 3 5) (Examples.one_cell 0 3))
          (Spec.common_part (Examples.one_cell 0 3) (Examples.two_steps 3 5))).
Proof.
  destruct (computed_weighted_rmse_never_raises (Examples.two_steps 3 5)
              (Examples.one_cell 0 3)) as (v & Hv & Hcommon & _).
  - split; [done|]. repeat constructor.
  - split; [done|]. repeat constructor.
  - split; [|split]; cbn.
    + apply NoDup_cons. split; [|apply NoDup_singleton].
      intros Hin%list_elem_of_singleton. discriminate Hin.
    + apply NoDup_singleton.
    + apply NoDup_singleton.
  - split; [|split]; apply NoDup_singleton.
  - rewrite Hv. f_equal. apply Hcommon.
    + split; [|split]; repeat constructor.
    + split; [|split]; repeat constructor.
Defined.

(** C3 as stated fails twice. Time axes of two and of one entry raise
    nothing: the metric is computed on the one common timestamp. A field
    without time entries raises nothing either: the result is NaN. *)
Lemma computed_weighted_rmse_no_error_counterexample :
  length (time (Examples.two_steps 3 5)) ≠ length (time (Examples.one_cell 0 3))
  ∧ computed_weighted_rmse (Examples.two_steps 3 5) (Examples.one_cell 0 3)
    = Ok (Fin 0)
  ∧ has_empty_axis Examples.no_time
  ∧ computed_weighted_rmse Examples.no_time Examples.no_time = Ok NaN.
Proof.
  split; [done|]. split; [|split; [by left|]].
  - rewrite (rmse_joined _ _ [0%Z] [0%R] [0%R]); [|done|apply join_same..].
    f_equal. unfold rmse_of_error, error_on. cbn [lat].
    rewrite weights_lat_equator.
    change (reindex_like (Examples.two_steps 3 5) [0%Z] [0%R] [0%R])
      with (reindex_like (Examples.two_steps 3 5) [0%Z]
              (lat (Examples.two_steps 3 5)) (lon (Examples.two_steps 3 5))).
    change (reindex_like (Examples.one_cell 0 3) [0%Z] [0%R] [0%R])
      with (reindex_like (Examples.one_cell 0 3) [0%Z]
              (lat (Examples.one_cell 0 3)) (lon (Examples.one_cell 0 3))).
    rewrite !values_reindex_like_time.
    change (conform _ _ _ (values (Examples.two_steps 3 5))) with [[[Fin 3]]].
    change (conform _ _ _ (values (Examples.one_cell 0 3))) with [[[Fin 3]]].
    cbn. apply nsqrt_nanmean_single; [ring|lra].
  - rewrite (rmse_joined _ _ [] [0%R] [0%R]); [done|apply join_same..].
Qed.

(** ** A field against itself *)

Section self.
#[local] Open Scope R_scope.

Lemma is_fin_inv x : is_fin x → ∃ a, x = Fin a.
Proof. destruct x; try done. eauto. Qed.

(** The weighted squared difference of a cell with itself is 0 for a
    finite value, and NaN otherwise. *)
Lemma zero_cell (x wl : number) :
  is_fin x → is_fin wl → nmul (nsquare (nsub x x)) wl = Fin 0.
Proof.
  intros [a ->]%is_fin_inv [c ->]%is_fin_inv. cbn. f_equal. ring.
Qed.

Lemma zero_or_nan_cell (x wl : number) :
  is_fin wl →
  nmul (nsquare (nsub x x)) wl = Fin 0 ∨ nmul (nsquare (nsub x x)) wl = NaN.
Proof.
  intros Hwl. destruct x; [left; by apply zero_cell|by right..].
Qed.

Lemma Exists_concat {A} (P : A → Prop) (ls : list (list A)) :
  Exists (Exists P) ls → Exists P (concat ls).
Proof.
  induction 1 as [l ls Hl|l ls _ IH]; cbn; apply Exists_app; auto.
Qed.

Lemma self_cells_zero_or_nan (w : list number) (V : list (list (list number))) :
  Forall (λ x, is_fin x) w →
  Forall (λ x, x = Fin 0 ∨ x = NaN)
    (concat (concat (map (Spec.weight_rows w) (Spec.squared_error V V)))).
Proof.
  intros Hw. apply Forall_concat, Forall_concat.
  unfold Spec.squared_error, Spec.weight_rows.
  induction V as [|b V IH]; cbn; constructor; [|done]. clear IH.
  revert w Hw. induction b as [|r b IH]; intros [|wl w] Hw; cbn;
    try by constructor.
  apply Forall_cons in Hw as [Hwl Hw]. constructor; [|by apply IH].
  clear IH. induction r as [|x r IH]; cbn; constructor; [|done].
  by apply zero_or_nan_cell.
Qed.

Lemma self_row_has_zero (r : list number) (wl : number) :
  Exists (λ x, is_fin x) r → is_fin wl →
  Exists (λ x, x = Fin 0)
    (map (λ e, nmul e wl) (zip_with (λ a b, nsquare (nsub a b)) r r)).
Proof.
  intros Hr Hwl. induction Hr as [x r Hx|x r _ IH]; cbn.
  - apply Exists_cons_hd. by apply zero_cell.
  - by apply Exists_cons_tl.
Qed.

Lemma self_block_has_zero (w : list number) (b : list (list number)) :
  Exists (Exists (λ x, is_fin x)) b → length b = length w →
  Forall (λ x, is_fin x) w →
  Exists (Exists (λ x, x = Fin 0))
    (Spec.weight_rows w
       (zip_with (zip_with (λ a b, nsquare (nsub a b))) b b)).
Proof.
  intros Hb. revert w. unfold Spec.weight_rows.
  induction Hb as [r b Hr|r b _ IH]; intros [|wl w] Hlen Hw; try done;
    apply Forall_cons in Hw as [Hwl Hw]; cbn.
  - apply Exists_cons_hd. by apply self_row_has_zero.
  - apply Exists_cons_tl. apply IH; [|done]. by injection Hlen.
Qed.

Lemma self_cells_have_zero (w : list number) (V : list (list (list number))) :
  Forall (λ b, length b = length w) V →
  Exists (Exists (Exists (λ x, is_fin x))) V →
  Forall (λ x, is_fin x) w →
  Exists (λ x, x = Fin 0)
    (concat (concat (map (Spec.weight_rows w) (Spec.squared_error V V)))).
Proof.
  intros Hlen HV Hw. apply Exists_concat, Exists_concat.
  unfold Spec.squared_error.
  induction HV as [b V Hb|b V _ IH]; cbn;
    apply Forall_cons in Hlen as [Hb' Hlen].
  - apply Exists_cons_hd. by apply self_block_has_zero.
  - apply Exists_cons_tl. by apply IH.
Qed.

Lemma nanmean_zeros (l : list number) :
  Forall (λ x, x = Fin 0) l → l ≠ [] → nanmean l = Fin 0.
Proof.
  intros Hl Hne.
  assert (l = map Fin (replicate (length l) 0)) as ->.
  { clear Hne. induction Hl as [|x l -> _ IH]; [done|].
    cbn. by rewrite <- IH. }
  rewrite nanmean_Fin.
  - f_equal. rewrite ?length_map, ?length_replicate.
    assert (Rsum (replicate (length l) 0) = 0) as ->.
    { generalize (length l). intros n. induction n as [|n IH]; [done|].
      cbn. fold (Rsum (replicate n 0)). rewrite IH. ring. }
    unfold Rdiv. ring.
  - destruct l; [done|]. done.
Qed.

Lemma filter_not_nan_idemp (l : list number) :
  filter (λ x, is_nan x = false) (filter (λ x, is_nan x = false) l)
  = filter (λ x, is_nan x = false) l.
Proof.
  induction l as [|x l IH]; [done|]. rewrite filter_cons.
  destruct (decide (is_nan x = false)) as [Hx|Hx]; [|done].
  by rewrite filter_cons_True, IH.
Qed.

(** Zeros among NaNs average to zero. *)
Lemma nanmean_zeros_and_nans (l : list number) :
  Forall (λ x, x = Fin 0 ∨ x = NaN) l → Exists (λ x, x = Fin 0) l →
  nanmean l = Fin 0.
Proof.
  intros Hall Hex.
  assert (nanmean l = nanmean (filter (λ x, is_nan x = false) l)) as ->
    by (unfold nanmean; by rewrite filter_not_nan_idemp).
  apply nanmean_zeros.
  - apply Forall_forall. intros x [Hx Hin]%list_elem_of_filter.
    apply (proj1 (Forall_forall _ _) Hall) in Hin as [->| ->]; done.
  - apply Exists_exists in Hex as (x & Hin & ->).
    intros Hnil.
    assert (Fin 0 ∈ filter (λ x, is_nan x = false) l) as Hmem
      by by apply list_elem_of_filter.
    rewrite Hnil in Hmem. by apply elem_of_nil in Hmem.
Qed.

Lemma length_weights_lat lats : length (weights_lat lats) = length lats.
Proof. unfold weights_lat, cos_lat. by rewrite !length_map. Qed.
End self.

(** A field that holds at least one finite value, on latitudes from pole
    to pole, is at distance 0 from itself. *)
Lemma rmse_self (f : DataArray) :
  shape_ok f → has_finite_value f →
  Forall (λ la, -90 <= la <= 90)%R (lat f) →
  computed_weighted_rmse f f = Ok (Fin 0).
Proof.
  intros [_ Hblocks] Hfin Hlats.
  assert (lat f ≠ []) as Hla.
  { intros Hnil. unfold has_finite_value in Hfin.
    apply Exists_exists in Hfin as (b & Hb & Hex).
    apply (proj1 (Forall_forall _ _) Hblocks) in Hb as [Hlen _].
    rewrite Hnil in Hlen. apply nil_length_inv in Hlen. subst b.
    by apply Exists_nil in Hex. }
  destruct (mean_cos_pos (lat f) Hla Hlats) as (m & Hm & Hpos).
  rewrite rmse_identical_axes by done. f_equal.
  unfold Spec.computeWeightedRMSE. rewrite <- weights_lat_spec.
  assert (Forall (λ x, is_fin x) (weights_lat (lat f))) as Hw.
  { rewrite (weights_lat_Fin _ _ Hm) by lra.
    apply Forall_map, Forall_forall. by intros c _. }
  rewrite nanmean_zeros_and_nans.
  - rewrite nsqrt_Fin by lra. f_equal. apply sqrt_0.
  - by apply self_cells_zero_or_nan.
  - apply self_cells_have_zero; [|done..].
    rewrite length_weights_lat. eapply Forall_impl; [exact Hblocks|].
    by intros b [? _].
Qed.




(** A grid that holds a pole only is no exception. *)
Example computed_weighted_rmse_self_pole :
  computed_weighted_rmse
    {| time := [0%Z]; lat := [90%R]; lon := [0%R]; values := [[[Fin 7]]] |}
    {| time := [0%Z]; lat := [90%R]; lon := [0%R]; values := [[[Fin 7]]] |}
  = Ok (Fin 0).
Proof.
  apply rmse_self.
  - split; [done|]. repeat constructor.
  - repeat apply Exists_cons_hd. done.
  - repeat constructor; lra.
Qed.


(** ** The persistence forecast *)

Section persistence.
#[local] Open Scope Z_scope.

Lemma slice_drop_last {A} (k : Z) (l : list A) :
  0 < k →
  PySlice.slice (Some 0) (Some (- k)) l
  = take (length l - Z.to_nat k)%nat l.
Proof.
  intros Hk. unfold PySlice.slice, PySlice.bounds, PySlice.clip. cbn.
  destruct (- k <? 0) eqn:E; [|apply Z.ltb_ge in E; lia].
  rewrite Z.min_l by lia. cbn. f_equal. lia.
Qed.

Lemma elem_of_slice {A} (start stop : option Z) (l : list A) x :
  x ∈ PySlice.slice start stop l → x ∈ l.
Proof.
  unfold PySlice.slice. destruct (PySlice.bounds _ _ _) as [lo len].
  intros (i & Hi & _)%elem_of_take. rewrite lookup_drop in Hi.
  by eapply list_elem_of_lookup_2.
Qed.

(** What the persistence cell computes: the leading entries keep their
    values, and every label moves five days on, whatever the lead. *)
Lemma persistence_unfold (f : DataArray) (k : Z) :
  0 < k →
  let n := (length (time f) - Z.to_nat k)%nat in
  time (persistence f k)
  = map (λ t, t + Calendar.timedelta64_D 5) (take n (time f))
  ∧ (length (values f) = length (time f) →
     values (persistence f k) = take n (values f))
  ∧ lat (persistence f k) = lat f ∧ lon (persistence f k) = lon f.
Proof.
  intros Hk n. unfold persistence, assign_time, isel_time.
  cbn [time lat lon values].
  rewrite !slice_drop_last by done. repeat split; try done.
  by intros ->.
Qed.

Lemma head_least (l : list Z) t0 x :
  StronglySorted Z.lt l → head l = Some t0 → x ∈ l → t0 <= x.
Proof.
  destruct l as [|y l]; [done|]. intros Hs [= ->] Hx.
  apply StronglySorted_inv in Hs as [_ Hall].
  apply elem_of_cons in Hx as [->|Hx]; [lia|].
  apply (proj1 (Forall_forall _ _) Hall) in Hx. lia.
Qed.

(** The first timestamp of a field is not among the labels of its
    persistence forecast. *)
Lemma persistence_misses_head (f : DataArray) (k : Z) t0 :
  StronglySorted Z.lt (time f) → head (time f) = Some t0 →
  t0 ∉ time (persistence f k).
Proof.
  intros Hs Hhd Hin. unfold persistence, assign_time, isel_time in Hin.
  cbn [time] in Hin. apply list_elem_of_fmap in Hin as (t & Ht & Hin).
  apply elem_of_slice in Hin.
  pose proof (head_least _ _ _ Hs Hhd Hin) as Hle.
  unfold Calendar.timedelta64_D, Calendar.ns_per_day,
    Calendar.ns_per_hour in Ht. lia.
Qed.
End persistence.

(** A selection by years that every timestamp satisfies keeps the
    field as it is. *)
Lemma sel_time_all (ys : Z * Z) (d : DataArray) :
  Forall (λ t, in_years ys t) (time d) →
  length (values d) = length (time d) →
  sel_time ys d = d.
Proof.
  intros Hall Hlen. destruct d as [t la lo v]. unfold sel_time.
  cbn [time lat lon values] in *. f_equal.
  - clear Hlen. induction Hall as [|x t Hx _ IH]; [done|].
    by rewrite filter_cons_True, IH.
  - revert v Hlen. induction Hall as [|x t Hx _ IH]; intros [|b v] Hlen;
      try done.
    cbn [zip zip_with]. rewrite filter_cons_True by done. cbn [map snd].
    f_equal. apply IH. by injection Hlen.
Qed.

(** C2 on twelve hourly entries of January 1st, 2017, with the lead of ten
    steps of the notebook. Every entry is a test entry. The forecast
    keeps the first two entries with their values, and the code labels
    them five days after their own timestamps, on January 6th; ten steps
    at the hourly cadence of the field are ten hours. *)
Theorem persistence_hourly_shift_five_days :
  let z500 := Samples.hourly_2017 in
  let fc := persistence_fc z500 in
  sel_time test_years z500 = z500
  ∧ values fc = [[[Fin 0]]; [[Fin 1]]]
  ∧ time fc = [Calendar.datetime64 2017 1 6 0; Calendar.datetime64 2017 1 6 1]
  ∧ map (λ t, (t + lead_time_steps * Calendar.ns_per_hour)%Z)
        (take 2 (time z500))
    = [Calendar.datetime64 2017 1 1 10; Calendar.datetime64 2017 1 1 11]
  ∧ time fc
    ≠ map (λ t, (t + lead_time_steps * Calendar.ns_per_hour)%Z)
          (take 2 (time z500)).
Proof.
  intros z500 fc.
  assert (sel_time test_years z500 = z500) as Hsel.
  { apply sel_time_all; [|done].
    apply (bool_decide_unpack _). vm_compute. exact I. }
  unfold fc, persistence_fc. rewrite Hsel.
  destruct (persistence_unfold z500 lead_time_steps) as (Ht & Hv & _);
    [done|].
  assert (time (persistence z500 lead_time_steps)
          = [Calendar.datetime64 2017 1 6 0; Calendar.datetime64 2017 1 6 1])
    as Ht' by (rewrite Ht; vm_compute; reflexivity).
  split; [done|]. split; [by rewrite Hv|]. split; [exact Ht'|].
  split; [vm_compute; reflexivity|].
  rewrite Ht'. vm_compute. intros [=].
Qed.

(** C10. When the time axes of two fields on one grid differ, nothing is
    raised: the result is the formula of the specification on the time
    entries of the forecast whose timestamp the truth has too against the
    time entries of the truth whose timestamp the forecast has too, the
    two carrying the same timestamps in the same order. Every other entry
    is left out. When the forecast is the persistence forecast of the
    truth, the first timestamp of the truth is among those left out: the
    two share only a part of their time axes. *)
Theorem computed_weighted_rmse_time_overlap (fc gt : DataArray) :
  shape_ok fc → shape_ok gt →
  StronglySorted Z.lt (time fc) → StronglySorted Z.lt (time gt) →
  lat fc = lat gt → lon fc = lon gt →
  computed_weighted_rmse fc gt
  = Ok (Spec.computeWeightedRMSE (lat gt)
          (Spec.rows_where (.∈ time gt) (time fc) (values fc))
          (Spec.rows_where (.∈ time fc) (time gt) (values gt)))
  ∧ filter (.∈ time gt) (time fc) = filter (.∈ time fc) (time gt)
  ∧ (∀ k t0, fc = persistence gt k → head (time gt) = Some t0 →
       t0 ∈ time gt ∧ t0 ∉ time fc).
Proof.
  intros Hs1 Hs2 Hst1 Hst2 Hla Hlo.
  split; [by apply rmse_time_overlap|]. split.
  - apply (join_sorted Z.lt); [intros; lia|done..].
  - intros k t0 -> Hhd. split.
    + destruct (time gt); [done|]. injection Hhd as ->. left.
    + by eapply persistence_misses_head.
Qed.

Lemma computed_weighted_rmse_time_overlap_witness :
  computed_weighted_rmse (persistence Samples.daily_7 5) Samples.daily_7
  = Ok (Spec.computeWeightedRMSE [0%R]
          [[[Fin 0]]; [[Fin 1]]] [[[Fin 5]]; [[Fin 6]]]).
Proof.
  destruct (persistence_unfold Samples.daily_7 5) as (Ht & Hv & Hla & Hlo);
    [done|].
  specialize (Hv eq_refl).
  destruct (computed_weighted_rmse_time_overlap
              (persistence Samples.daily_7 5) Samples.daily_7) as [E _].
  - split; [by rewrite Ht, Hv|]. rewrite Hv. repeat constructor.
  - split; [done|]. repeat constructor.
  - rewrite Ht. apply (bool_decide_unpack _). vm_compute. exact I.
  - apply (bool_decide_unpack _). vm_compute. exact I.
  - done.
  - done.
  - rewrite E. reflexivity.
Defined.

(** ** The climatology baseline *)

Section climatology_score.

(** Scoring against a field or against its selection by years is the
    same when the forecast carries the time axis of the selection. *)
Lemma rmse_sel_time fc z ys :
  time fc = time (sel_time ys z) →
  NoDup (time z) → length (values z) = length (time z) →
  computed_weighted_rmse fc z = computed_weighted_rmse fc (sel_time ys z).
Proof.
  intros Ht Hnd Hlen.
  assert (join (time fc) (time z) = Ok (time fc)) as Hjoin.
  { rewrite join_unique; [|rewrite Ht; by apply NoDup_filter|done].
    f_equal. apply list_intersection_subseteq. rewrite Ht.
    intros t Hin. by apply list_elem_of_filter in Hin as [_ ?]. }
  assert (join (time fc) (time (sel_time ys z)) = Ok (time fc)) as Hjoin'
    by (rewrite <- Ht; apply join_same).
  assert (∀ la lo, error_on (time fc) la lo fc z
                   = error_on (time fc) la lo fc (sel_time ys z)) as Herr.
  { intros la lo. unfold error_on. do 2 f_equal. rewrite Ht.
    unfold reindex_like, nan_block, nan_row.
    cbn [time lat lon values sel_time]. rewrite conform_same.
    by rewrite (conform_filter (λ t, in_years ys t)). }
  unfold computed_weighted_rmse, binary_op, align.
  rewrite Hjoin, Hjoin'. cbn [lat lon sel_time].
  destruct (join (lat fc) (lat z)) as [la|e]; [|done].
  destruct (join (lon fc) (lon z)) as [lo|e]; [|done].
  cbn. f_equal. apply (f_equal rmse_of_error (Herr la lo)).
Qed.

Lemma get_loc_elem_of (k : Z) (idx : list Z) :
  k ∈ idx → ∃ n, get_loc k idx = Some n.
Proof.
  induction idx as [|y idx IH]; [by intros ?%elem_of_nil|].
  intros Hin. cbn. destruct (decide (k = y)) as [|Hne]; [by eexists|].
  apply elem_of_cons in Hin as [?|Hin]; [done|].
  destruct (IH Hin) as [m ->]. by eexists.
Qed.

Lemma lookup_days_Ok c days vals :
  lookup_days c days = Ok vals →
  length vals = length days
  ∧ ∀ i k, days !! i = Some k →
      ∃ n, get_loc k (dayofyear_idx c) = Some n
           ∧ vals !! i = Some (default [] (cvalues c !! n)).
Proof.
  revert vals. induction days as [|k days IH]; intros vals Hok.
  - injection Hok as <-. split; [done|]. by intros i k ?.
  - cbn in Hok. destruct (get_loc k (dayofyear_idx c)) as [n|] eqn:Hn;
      [|done].
    destruct (lookup_days c days) as [rest|e]; [|done].
    injection Hok as <-. destruct (IH rest eq_refl) as [Hlen Hall].
    split; [cbn; by rewrite Hlen|].
    intros [|i] k' Hk'; cbn in *.
    + injection Hk' as <-. eauto.
    + by apply Hall.
Qed.

Lemma lookup_days_total c days :
  Forall (λ k, k ∈ dayofyear_idx c) days →
  ∃ vals, lookup_days c days = Ok vals.
Proof.
  induction 1 as [|k days Hk _ [rest IH]]; [by eexists|].
  cbn. destruct (get_loc_elem_of _ _ Hk) as [n ->]. rewrite IH.
  by eexists.
Qed.

Lemma lookup_days_missing c days k :
  k ∈ days → k ∉ dayofyear_idx c → lookup_days c days = Raise KeyError.
Proof.
  intros Hin Hk. induction days as [|k' days IH];
    [by apply elem_of_nil in Hin|].
  cbn. destruct (get_loc k' (dayofyear_idx c)) as [n|] eqn:Hn; [|done].
  apply elem_of_cons in Hin as [->|Hin].
  - exfalso. apply Hk. clear -Hn. revert n Hn.
    induction (dayofyear_idx c) as [|y idx IH]; intros n Hn; [done|].
    cbn in Hn. destruct (decide (k' = y)) as [->|]; [left|].
    destruct (get_loc k' idx); [|done]. right. by eapply IH.
  - by rewrite (IH Hin).
Qed.
End climatology_score.

Lemma clim_rmse_target (c : Climatology) (z500 : DataArray) :
  NoDup (time z500) → length (values z500) = length (time z500) →
  clim_rmse c z500
  = (fc ← clim_fc c z500; computed_weighted_rmse fc (target z500)).
Proof.
  intros Hnd Hlen. unfold clim_rmse, clim_fc, target, sel_dayofyear.
  destruct (lookup_days c _) as [vals|e]; [|done]. cbn.
  by apply rmse_sel_time.
Qed.

(** C4. The forecast holds, for every time entry of the target, the table
    entry of that entry's day of year and has exactly the time axis of the
    target; a day the table lacks raises [KeyError]. The score the code
    returns, written against the whole of [z500], is the metric of that
    forecast against the target field alone. *)
Theorem clim_rmse_against_target (c : Climatology) (z500 : DataArray) :
  NoDup (time z500) → shape_ok z500 →
  clim_rmse c z500
  = (fc ← clim_fc c z500; computed_weighted_rmse fc (target z500))
  ∧ (Forall (λ t, Calendar.dayofyear t ∈ dayofyear_idx c) (time (target z500)) →
     ∃ fc, clim_fc c z500 = Ok fc)
  ∧ (∀ t, t ∈ time (target z500) → Calendar.dayofyear t ∉ dayofyear_idx c →
       clim_rmse c z500 = Raise KeyError)
  ∧ (∀ fc, clim_fc c z500 = Ok fc →
       time fc = time (target z500) ∧ lat fc = clat c ∧ lon fc = clon c
       ∧ length (values fc) = length (time fc)
       ∧ ∀ i t, time (target z500) !! i = Some t →
           ∃ n, get_loc (Calendar.dayofyear t) (dayofyear_idx c) = Some n
                ∧ values fc !! i = Some (default [] (cvalues c !! n))).
Proof.
  intros Hnd [Hlen _]. split; [by apply clim_rmse_target|].
  unfold clim_rmse, clim_fc, target, sel_dayofyear. split; [|split].
  - intros Hall.
    destruct (lookup_days_total c
                (map Calendar.dayofyear (time (sel_time test_years z500))))
      as [vals ->]; [by apply Forall_fmap|by eexists].
  - intros t Hin Hmiss.
    rewrite (lookup_days_missing c _ (Calendar.dayofyear t)); [done| |done].
    apply list_elem_of_fmap. eauto.
  - intros fc Hfc.
    destruct (lookup_days c _) as [vals|e] eqn:Hvals; [|done].
    injection Hfc as <-. cbn [time lat lon values].
    destruct (lookup_days_Ok _ _ _ Hvals) as [Hl Hall].
    rewrite length_map in Hl. repeat split; try done.
    intros i t Hi. apply Hall. by rewrite list_lookup_fmap, Hi.
Qed.

Lemma clim_rmse_against_target_witness :
  clim_rmse (Examples.new_year_table 4) (Examples.around_new_year 1 2 3)
  = (fc ← clim_fc (Examples.new_year_table 4) (Examples.around_new_year 1 2 3);
     computed_weighted_rmse fc (target (Examples.around_new_year 1 2 3))).
Proof.
  apply (clim_rmse_against_target (Examples.new_year_table 4)
           (Examples.around_new_year 1 2 3)).
  - apply (bool_decide_unpack _). vm_compute. exact I.
  - split; [done|]. repeat constructor.
Defined.

(** ** The calendar *)

Section calendar.
#[local] Open Scope Z_scope.

Lemma years_checked : Calendar.years_checked_from 400 0 = true.
Proof. vm_compute. reflexivity. Qed.

Lemma years_checked_from_spec (n : nat) (a y : Z) :
  Calendar.years_checked_from n a = true →
  a <= y < a + Z.of_nat n → Calendar.year_checked y = true.
Proof.
  revert a. induction n as [|n IH]; intros a Hall Hy; [lia|].
  cbn [Calendar.years_checked_from] in Hall.
  apply andb_true_iff in Hall as [Ha Hall].
  destruct (decide (y = a)) as [->|Hne]; [done|].
  apply (IH (a + 1)); [done|lia].
Qed.

Lemma year_checked_spec (y : Z) :
  0 <= y < 400 →
  Calendar.yoe_of_doe (Calendar.year_start y) = y
  ∧ Calendar.yoe_of_doe (Z.min (Calendar.year_start (y + 1) - 1) 146095) = y.
Proof.
  intros Hy.
  pose proof (years_checked_from_spec 400 0 y years_checked) as H.
  unfold Calendar.year_checked in H.
  rewrite andb_true_iff, !Z.eqb_eq in H. apply H. lia.
Qed.

Lemma yoe_mono (d d' : Z) :
  0 <= d <= d' → d' < 146096 →
  Calendar.yoe_of_doe d <= Calendar.yoe_of_doe d'.
Proof.
  intros Hd Hd'. unfold Calendar.yoe_of_doe.
  apply Z.div_le_mono; [lia|].
  rewrite (Z.div_small d 146096), (Z.div_small d' 146096) by lia.
  assert (d / 36524 <= d' / 36524) by (apply Z.div_le_mono; lia).
  pose proof (Z.div_mod d 1460 ltac:(lia)).
  pose proof (Z.div_mod d' 1460 ltac:(lia)).
  pose proof (Z.mod_pos_bound d 1460 ltac:(lia)).
  pose proof (Z.mod_pos_bound d' 1460 ltac:(lia)).
  lia.
Qed.

(** Every day of the 400-year era falls on day 0 to 365 of its
    March-based year. *)
Lemma mdoy_range (doe : Z) :
  0 <= doe < 146097 → 0 <= Calendar.mdoy_of_doe doe <= 365.
Proof.
  intros Hdoe.
  destruct (decide (doe = 146096)) as [->|Hlast]; [by vm_compute|].
  remember (Calendar.yoe_of_doe doe) as y eqn:Ey.
  assert (0 <= y <= 399) as Hy.
  { rewrite Ey. split.
    - change 0 with (Calendar.yoe_of_doe 0) at 1. apply yoe_mono; lia.
    - change 399 with (Calendar.yoe_of_doe 146095). apply yoe_mono; lia. }
  assert (Calendar.year_start y <= doe) as Hlo.
  { destruct (decide (y = 0)) as [E|Hy0]; [rewrite E; change (Calendar.year_start 0) with 0; lia|].
    destruct (Z_le_gt_dec (Calendar.year_start y) doe) as [|Hgt]; [done|].
    exfalso. destruct (year_checked_spec (y - 1)) as [_ Hend]; [lia|].
    replace (y - 1 + 1) with y in Hend by lia.
    assert (y <= y - 1); [|lia].
    rewrite <- Hend. rewrite Ey at 1. apply yoe_mono; lia. }
  assert (doe < Calendar.year_start (y + 1)) as Hhi.
  { destruct (decide (y = 399)) as [E|Hy399]; [rewrite E; change (Calendar.year_start (399 + 1)) with 146096; lia|].
    destruct (Z_lt_ge_dec doe (Calendar.year_start (y + 1))) as [|Hge];
      [done|].
    exfalso. destruct (year_checked_spec (y + 1)) as [Hstart _]; [lia|].
    assert (y + 1 <= y); [|lia].
    rewrite <- Hstart. rewrite Ey at 2.
    apply yoe_mono; unfold Calendar.year_start in *;
      Z.div_mod_to_equations; lia. }
  unfold Calendar.mdoy_of_doe. rewrite <- Ey.
  unfold Calendar.year_start in Hlo, Hhi. clear Ey.
  Z.div_mod_to_equations. lia.
Qed.

Lemma dayofyear_range (t : Z) : 1 <= Calendar.dayofyear t <= 366.
Proof.
  unfold Calendar.dayofyear, Calendar.dayofyear_of_days.
  pose proof (mdoy_range (Calendar.doe_of_days (Calendar.days_of t))) as H.
  unfold Calendar.doe_of_days in H at 1.
  specialize (H (Z.mod_pos_bound _ 146097 eq_refl)).
  destruct (306 <=? _) eqn:E.
  - apply Z.leb_le in E. lia.
  - apply Z.leb_gt in E. destruct (Calendar.is_leap _); lia.
Qed.
End calendar.

(** ** Selections by years *)

Section split_years.
#[local] Open Scope Z_scope.

Lemma in_years_spec ys t :
  in_years ys t ↔ ys.1 <= Calendar.year t <= ys.2.
Proof.
  unfold in_years. rewrite andb_True, !Is_true_true, !Z.leb_le. done.
Qed.

Lemma elem_of_sel_time ys d t :
  t ∈ time (sel_time ys d) ↔ ys.1 <= Calendar.year t <= ys.2 ∧ t ∈ time d.
Proof. cbn. by rewrite list_elem_of_filter, in_years_spec. Qed.


Lemma values_sel_time ys d :
  values (sel_time ys d)
  = Spec.rows_where (λ t, ys.1 <= Calendar.year t <= ys.2)
      (time d) (values d).
Proof.
  cbn [values sel_time]. unfold Spec.rows_where. f_equal.
  apply list_filter_iff. intros [t b]. apply in_years_spec.
Qed.


End split_years.

(** ** The climatology table *)

Section climatology.

Lemma dayofyear_idx_elem_of d k :
  k ∈ dayofyear_idx (groupby_dayofyear_mean d)
  ↔ ∃ t, t ∈ time d ∧ Calendar.dayofyear t = k.
Proof.
  cbn. rewrite merge_sort_Permutation, elem_of_remove_dups,
    list_elem_of_fmap.
  split; intros (t & H1 & H2); exists t; by split.
Qed.

Lemma lookup_mean_blocks nlat nlon blocks i j :
  i < nlat → j < nlon →
  mean_blocks nlat nlon blocks !! i ≫= (.!! j)
  = Some (nanmean (map (λ b, cell b i j) blocks)).
Proof.
  intros Hi Hj. unfold mean_blocks.
  rewrite list_lookup_fmap, lookup_seq_lt by done. cbn.
  by rewrite list_lookup_fmap, lookup_seq_lt.
Qed.

(** A day of year that occurs has at least one entry to average. *)
Lemma group_nonempty d t :
  length (values d) = length (time d) → t ∈ time d →
  group (Calendar.dayofyear t) d ≠ [].
Proof.
  intros Hlen Hin Hnil. unfold group in Hnil.
  apply fmap_nil_inv in Hnil.
  apply list_elem_of_lookup in Hin as [i Hi].
  destruct (lookup_lt_is_Some_2 (values d) i) as [b Hb].
  { rewrite Hlen. by eapply lookup_lt_Some. }
  assert ((t, b) ∈ filter (λ p, Calendar.dayofyear p.1 = Calendar.dayofyear t)
                    (zip (time d) (values d))) as Hmem.
  { apply list_elem_of_filter. split; [done|].
    apply list_elem_of_lookup. exists i. by apply lookup_zip_with_Some; eauto. }
  rewrite Hnil in Hmem. by apply elem_of_nil in Hmem.
Qed.
End climatology.

(** C5. The table has one entry per day of year that occurs among the
    timestamps, labels between 1 and 366 in increasing order without
    repetition. The entry of a day holds, cell by cell, the mean of the
    values that cell has at the time entries of the field whose timestamp
    falls on that day of year, in whatever year: for finite values their
    exact average. No entry averages an empty list. *)
Theorem groupby_dayofyear_mean_spec (d : DataArray) :
  let c := groupby_dayofyear_mean d in
  (∀ k, k ∈ dayofyear_idx c ↔ ∃ t, t ∈ time d ∧ Calendar.dayofyear t = k)
  ∧ NoDup (dayofyear_idx c) ∧ Sorted Z.le (dayofyear_idx c)
  ∧ Forall (λ k, 1 ≤ k ≤ 366)%Z (dayofyear_idx c)
  ∧ clat c = lat d ∧ clon c = lon d
  ∧ (∀ n k, dayofyear_idx c !! n = Some k →
       ∃ block, cvalues c !! n = Some block
         ∧ ∀ i j, i < length (lat d) → j < length (lon d) →
             let cells :=
               Spec.cells_where (λ t, Calendar.dayofyear t = k) d i j in
             (length (values d) = length (time d) → cells ≠ [])
             ∧ block !! i ≫= (.!! j) = Some (nanmean cells)
             ∧ ∀ xs, cells = map Fin xs → xs ≠ [] →
                 block !! i ≫= (.!! j)
                 = Some (Fin (Rsum xs / INR (length xs)))).
Proof.
  intros c. split; [apply dayofyear_idx_elem_of|].
  split; [|split; [|split; [|split; [done|split; [done|]]]]].
  - cbn. rewrite merge_sort_Permutation. apply NoDup_remove_dups.
  - cbn. apply Sorted_merge_sort. apply _.
  - apply Forall_forall. intros k (t & _ & <-)%dayofyear_idx_elem_of.
    apply dayofyear_range.
  - intros n k Hk. eexists. split.
    { cbn. rewrite list_lookup_fmap. cbn in Hk. by rewrite Hk. }
    intros i j Hi Hj cells.
    assert (cells = map (λ b, cell b i j) (group k d)) as Hcells by done.
    split; [|split].
    + intros Hlen Hnil. rewrite Hcells in Hnil. apply map_eq_nil in Hnil.
      assert (k ∈ dayofyear_idx c) as (t & Ht & <-)%dayofyear_idx_elem_of
        by by eapply list_elem_of_lookup_2.
      by apply (group_nonempty d t).
    + by rewrite lookup_mean_blocks, Hcells.
    + intros xs Hxs Hne. rewrite lookup_mean_blocks by done.
      rewrite <- Hcells, Hxs. by rewrite nanmean_Fin.
Qed.

(** The table of a series of two years: each day holds the average of its
    two values. *)
Example groupby_dayofyear_mean_two_years (a1 a2 b1 b2 : R) :
  groupby_dayofyear_mean (Examples.two_years a1 a2 b1 b2)
  = {| dayofyear_idx := [1; 2]%Z; clat := [0%R]; clon := [0%R];
       cvalues := [[[Fin ((a1 + b1) / 2)]]; [[Fin ((a2 + b2) / 2)]]] |}.
Proof.
  unfold groupby_dayofyear_mean.
  assert (merge_sort Z.le
            (remove_dups (map Calendar.dayofyear
                            (time (Examples.two_years a1 a2 b1 b2))))
          = [1; 2]%Z) as -> by (vm_compute; reflexivity).
  cbn [map lat lon length Examples.two_years].
  assert (group 1 (Examples.two_years a1 a2 b1 b2) = [[[Fin a1]]; [[Fin b1]]])
    as -> by (vm_compute; reflexivity).
  assert (group 2 (Examples.two_years a1 a2 b1 b2) = [[[Fin a2]]; [[Fin b2]]])
    as -> by (vm_compute; reflexivity).
  unfold mean_blocks.
  cbn [seq map cell lookup list_lookup mbind option_bind default Datatypes.id].
  change [Fin a1; Fin b1] with (map Fin [a1; b1]).
  change [Fin a2; Fin b2] with (map Fin [a2; b2]).
  rewrite !nanmean_Fin by done. cbn [Rsum foldr length INR].
  do 5 f_equal; [|do 2 f_equal]; field.
Qed.

(** ** Normalisation of the splits *)

Section splits.

Lemma slice_map {A B} (f : A → B) (start stop : option Z) (l : list A) :
  PySlice.slice start stop (map f l) = map f (PySlice.slice start stop l).
Proof.
  unfold PySlice.slice. rewrite length_map.
  destruct (PySlice.bounds _ _ _) as [lo len].
  change (map f) with (fmap (M:=list) f).
  by rewrite fmap_take, fmap_drop.
Qed.

Lemma X_of_map_values (f : number → number) k d :
  X_of k (map_values f d)
  = expand_last (map (map (map f))
                     (PySlice.slice None (Some (- k)%Z) (values d))).
Proof.
  unfold X_of, isel_time, map_values. cbn [values]. by rewrite slice_map.
Qed.

Lemma Y_of_map_values (f : number → number) k d :
  Y_of k (map_values f d)
  = expand_last (map (map (map f))
                     (PySlice.slice (Some k) None (values d))).
Proof.
  unfold Y_of, isel_time, map_values. cbn [values]. by rewrite slice_map.
Qed.

Lemma normalise_Fin (r mu sigma : R) :
  sigma ≠ 0%R →
  ndiv (nsub (Fin r) (Fin mu)) (Fin sigma) = Fin ((r - mu) / sigma).
Proof. intros Hs. cbn. by destruct (Req_dec_T sigma 0). Qed.
End splits.

(** C9. The mean and the standard deviation that are returned are those
    of the values at the timestamps of the years 1979 to 2015 and of no
    other: a dataset with the same rows in these years gives the same two
    numbers, whatever it holds in 2016 to 2018. Each of the six arrays is
    the rows of its years (1979-2015, 2016, 2017-2018), cut to inputs or
    targets, under the one map [x ↦ (x - mean) / std] with these two
    numbers. For finite statistics with a non-zero deviation the map is
    affine on finite values. *)
Theorem splits_use_training_statistics (lead_steps : Z) (z500 : DataArray) :
  let s := get_train_valid_test_dataset lead_steps z500 in
  let norm := λ x, ndiv (nsub x (mean s)) (std s) in
  let rows y1 y2 (z : DataArray) :=
    Spec.rows_where (λ t, (y1 ≤ Calendar.year t ≤ y2)%Z) (time z) (values z) in
  let inputs y1 y2 :=
    expand_last (map (map (map norm))
      (PySlice.slice None (Some (- lead_steps)%Z) (rows y1 y2 z500))) in
  let targets y1 y2 :=
    expand_last (map (map (map norm))
      (PySlice.slice (Some lead_steps) None (rows y1 y2 z500))) in
  mean s = nanmean (concat (concat (rows 1979%Z 2015%Z z500)))
  ∧ std s = nanstd (concat (concat (rows 1979%Z 2015%Z z500)))
  ∧ X_train s = inputs 1979%Z 2015%Z ∧ Y_train s = targets 1979%Z 2015%Z
  ∧ X_valid s = inputs 2016%Z 2016%Z ∧ Y_valid s = targets 2016%Z 2016%Z
  ∧ X_test s = inputs 2017%Z 2018%Z ∧ Y_test s = targets 2017%Z 2018%Z
  ∧ (∀ z, rows 1979%Z 2015%Z z = rows 1979%Z 2015%Z z500 →
       mean (get_train_valid_test_dataset lead_steps z) = mean s
       ∧ std (get_train_valid_test_dataset lead_steps z) = std s)
  ∧ (∀ mu sigma r, mean s = Fin mu → std s = Fin sigma → sigma ≠ 0%R →
       norm (Fin r) = Fin ((r - mu) / sigma)).
Proof.
  intros s norm rows inputs targets.
  assert (∀ z, values (sel_time train_years z) = rows 1979%Z 2015%Z z) as Htr
    by (intros z; apply values_sel_time).
  assert (values (sel_time valid_years z500) = rows 2016%Z 2016%Z z500) as Hva
    by apply values_sel_time.
  assert (values (sel_time test_years z500) = rows 2017%Z 2018%Z z500) as Hte
    by apply values_sel_time.
  assert (∀ z, mean (get_train_valid_test_dataset lead_steps z)
               = nanmean (concat (concat (rows 1979%Z 2015%Z z)))
               ∧ std (get_train_valid_test_dataset lead_steps z)
                 = nanstd (concat (concat (rows 1979%Z 2015%Z z)))) as Hstat.
  { intros z. unfold get_train_valid_test_dataset, flat. cbn [mean std].
    by rewrite (Htr z). }
  destruct (Hstat z500) as [Hm Hs]. fold s in Hm, Hs.
  split; [exact Hm|]. split; [exact Hs|].
  assert (X_train s = inputs 1979%Z 2015%Z ∧ Y_train s = targets 1979%Z 2015%Z
          ∧ X_valid s = inputs 2016%Z 2016%Z ∧ Y_valid s = targets 2016%Z 2016%Z
          ∧ X_test s = inputs 2017%Z 2018%Z ∧ Y_test s = targets 2017%Z 2018%Z)
    as (H1 & H2 & H3 & H4 & H5 & H6).
  { unfold inputs, targets. rewrite <- (Htr z500), <- Hva, <- Hte.
    unfold norm, s, get_train_valid_test_dataset.
    cbn [mean std X_train Y_train X_valid Y_valid X_test Y_test].
    by rewrite !X_of_map_values, !Y_of_map_values. }
  do 6 (split; [assumption|]). split.
  - intros z Hz. destruct (Hstat z) as [-> ->]. by rewrite Hz, Hm, Hs.
  - intros mu sigma r Hmu Hsigma Hne.
    unfold norm. rewrite Hmu, Hsigma. by apply normalise_Fin.
Qed.

(** On two entries of 1979 holding 1 and 3 and two entries of 2017
    holding 5 and 7 the statistics are those of 1 and 3. *)
Example splits_statistics_of_training_years (lead_steps : Z) :
  mean (get_train_valid_test_dataset lead_steps Samples.train_and_test)
  = Fin 2
  ∧ std (get_train_valid_test_dataset lead_steps Samples.train_and_test)
    = Fin 1.
Proof.
  unfold get_train_valid_test_dataset. cbn [mean std].
  assert (flat (sel_time train_years Samples.train_and_test)
          = map Fin [1; 3]%R) as -> by reflexivity.
  assert (nanmean (map Fin [1; 3]%R) = Fin 2) as ->.
  { rewrite nanmean_Fin by done. f_equal. cbn. field. }
  split; [done|]. unfold nanstd.
  assert (nanmean (map Fin [1; 3]%R) = Fin 2) as ->.
  { rewrite nanmean_Fin by done. f_equal. cbn. field. }
  cbn [map nsquare nsub nadd nopp nmul].
  set (a := ((1 + - 2) * (1 + - 2))%R).
  set (b := ((3 + - 2) * (3 + - 2))%R).
  change (nsqrt (nanmean (map Fin [a; b])) = Fin 1).
  rewrite nanmean_Fin by done.
  replace (Rsum [a; b] / INR (length [a; b]))%R with 1%R
    by (subst a b; cbn; field).
  rewrite nsqrt_Fin by lra. f_equal. apply sqrt_1.
Qed.

(** ** The persistence cell on objects in memory *)

Section heap.
Import Heap.

Lemma pick_Forall2 {A} (r : list nat) (buf vs : list A) :
  pick r buf = Some vs ↔ Forall2 (λ i y, buf !! i = Some y) r vs.
Proof. apply mapM_Some. Qed.

Lemma pick_keep_rows {A} (P : Z → bool) ts r (buf vs : list A) :
  pick r buf = Some vs →
  pick (keep_rows P ts r) buf
  = Some (map snd (filter (λ p, P p.1) (zip ts vs))).
Proof.
  rewrite !pick_Forall2. intros Hall. revert ts. unfold keep_rows.
  induction Hall as [|i y r vs Hi _ IH]; intros [|t ts];
    try by constructor.
  cbn [zip zip_with]. rewrite !filter_cons. cbn.
  destruct (decide (P t)); cbn; [constructor|]; auto.
Qed.

Lemma filter_zip_self (P : Z → bool) (ts : list Z) :
  map snd (filter (λ p, P p.1) (zip ts ts)) = filter (λ t, P t) ts.
Proof.
  induction ts as [|t ts IH]; [done|].
  cbn [zip zip_with]. rewrite !filter_cons. cbn.
  destruct (decide (P t)); cbn; by rewrite <- IH.
Qed.

Lemma pick_slice {A} start stop r (buf vs : list A) :
  pick r buf = Some vs →
  pick (PySlice.slice start stop r) buf = Some (PySlice.slice start stop vs).
Proof.
  rewrite !pick_Forall2. intros Hall. unfold PySlice.slice.
  rewrite (Forall2_length _ _ _ Hall).
  destruct (PySlice.bounds _ _ _) as [lo len].
  by apply Forall2_take, Forall2_drop.
Qed.

Lemma pick_whole_app {A} (pre l : list A) :
  Forall2 (λ i y, (pre ++ l) !! i = Some y) (seq (length pre) (length l)) l.
Proof.
  revert pre. induction l as [|x l IH]; intros pre; [constructor|].
  cbn [length seq]. constructor.
  - by rewrite list_lookup_middle.
  - specialize (IH (pre ++ [x])).
    rewrite <- app_assoc, length_app, Nat.add_1_r in IH. exact IH.
Qed.

Lemma pick_whole {A} (l : list A) : pick (seq 0 (length l)) l = Some l.
Proof. apply pick_Forall2. apply (pick_whole_app [] l). Qed.

(** What an object denotes depends on the buffers it refers to only. *)
Lemma denote_mono s s' o d :
  buffers s ⊆ buffers s' → denote s o = Some d → denote s' o = Some d.
Proof.
  intros Hsub. unfold denote, time_of, coord_of, data_of.
  destruct (buffers s !! base (v_time o)) as [bt|] eqn:Et; [|done].
  rewrite (lookup_weaken _ _ _ _ Et Hsub).
  destruct (buffers s !! base (v_lat o)) as [bla|] eqn:Ela;
    [|by destruct bt as [ts| |]; [destruct (pick _ ts)| |]].
  rewrite (lookup_weaken _ _ _ _ Ela Hsub).
  destruct (buffers s !! base (v_lon o)) as [blo|] eqn:Elo.
  2:{ destruct bt as [ts| |]; [destruct (pick _ ts)| |]; try done.
      cbn. destruct bla as [|xs|]; [|destruct (pick _ xs)|]; done. }
  rewrite (lookup_weaken _ _ _ _ Elo Hsub).
  destruct (buffers s !! base (v_z o)) as [bz|] eqn:Ez.
  2:{ destruct bt as [ts| |]; [destruct (pick _ ts)| |]; try done.
      cbn. destruct bla as [|xs|]; [|destruct (pick _ xs)|]; try done.
      cbn. destruct blo as [|ys|]; [|destruct (pick _ ys)|]; done. }
  by rewrite (lookup_weaken _ _ _ _ Ez Hsub).
Qed.

Lemma denote_inv s o d :
  denote s o = Some d →
  time_of s (v_time o) = Some (time d)
  ∧ coord_of s (v_lat o) = Some (lat d)
  ∧ coord_of s (v_lon o) = Some (lon d)
  ∧ data_of s (v_z o) = Some (values d).
Proof.
  unfold denote. intros H.
  destruct (time_of s _) as [t|]; [|done]. cbn in H.
  destruct (coord_of s (v_lat o)) as [la|]; [|done]. cbn in H.
  destruct (coord_of s (v_lon o)) as [lo|]; [|done]. cbn in H.
  destruct (data_of s _) as [z|]; [|done]. cbn in H.
  by injection H as <-.
Qed.

Lemma denote_intro s o t la lo z :
  time_of s (v_time o) = Some t → coord_of s (v_lat o) = Some la →
  coord_of s (v_lon o) = Some lo → data_of s (v_z o) = Some z →
  denote s o = Some {| time := t; lat := la; lon := lo; values := z |}.
Proof. intros Ht Hla Hlo Hz. unfold denote. by rewrite Ht, Hla, Hlo, Hz. Qed.

Lemma fresh_object_None (s : store) : objects s !! fresh (dom (objects s)) = None.
Proof. apply not_elem_of_dom, is_fresh. Qed.

Lemma fresh_buffer_None (s : store) : buffers s !! fresh (dom (buffers s)) = None.
Proof. apply not_elem_of_dom, is_fresh. Qed.
End heap.

Section heap_cell.
Import Heap.

Lemma coord_of_mono s s' v xs :
  buffers s ⊆ buffers s' → coord_of s v = Some xs → coord_of s' v = Some xs.
Proof.
  intros Hsub. unfold coord_of.
  destruct (buffers s !! base v) as [b|] eqn:E; [|done].
  by rewrite (lookup_weaken _ _ _ _ E Hsub).
Qed.

Lemma data_of_mono s s' v z :
  buffers s ⊆ buffers s' → data_of s v = Some z → data_of s' v = Some z.
Proof.
  intros Hsub. unfold data_of.
  destruct (buffers s !! base v) as [b|] eqn:E; [|done].
  by rewrite (lookup_weaken _ _ _ _ E Hsub).
Qed.

Lemma time_of_selected s v ts P start stop :
  time_of s v = Some ts →
  time_of s {| base := base v;
               rows := PySlice.slice start stop (keep_rows P ts (rows v)) |}
  = Some (PySlice.slice start stop (filter (λ t, P t) ts)).
Proof.
  unfold time_of. cbn [base rows].
  destruct (buffers s !! base v) as [[buf| |]|]; try done.
  intros Hpick. apply pick_slice.
  by rewrite (pick_keep_rows P ts _ _ _ Hpick), filter_zip_self.
Qed.

Lemma data_of_selected s v ts z P start stop :
  data_of s v = Some z →
  data_of s {| base := base v;
               rows := PySlice.slice start stop (keep_rows P ts (rows v)) |}
  = Some (PySlice.slice start stop
            (map snd (filter (λ p, P p.1) (zip ts z)))).
Proof.
  unfold data_of. cbn [base rows].
  destruct (buffers s !! base v) as [[| |buf]|]; try done.
  intros Hpick. apply pick_slice. by apply pick_keep_rows.
Qed.
End heap_cell.

(** C8. Run on a store in which [z500] denotes a field, the persistence
    cell returns a new object, different from [z500], that denotes the
    persistence forecast of the test years. The field [z500] denotes
    afterwards is the field it denoted before, as is the field of every
    other object; no buffer of the store is written. The assignment of the
    time labels changes the new object only. *)
Theorem persistence_cell_frame (s : Heap.store) (z500 : positive) (k : Z)
    (d : DataArray) :
  Heap.load z500 s = Some d →
  ∃ fc s', Heap.persistence_cell z500 k s = Some (fc, s')
    ∧ fc ≠ z500
    ∧ Heap.objects s !! fc = None
    ∧ Heap.load fc s' = Some (persistence (sel_time test_years d) k)
    ∧ Heap.load z500 s' = Some d
    ∧ (∀ l d', Heap.load l s = Some d' → Heap.load l s' = Some d')
    ∧ (∀ b x, Heap.buffers s !! b = Some x → Heap.buffers s' !! b = Some x).
Proof.
  intros Hload.
  assert (∃ o, Heap.objects s !! z500 = Some o ∧ Heap.denote s o = Some d)
    as (o & Ho & Hd).
  { unfold Heap.load in Hload.
    destruct (Heap.objects s !! z500) as [o|]; [|done]. by exists o. }
  destruct (denote_inv _ _ _ Hd) as (Ht & Hla & Hlo & Hz).
  set (P := in_years test_years).
  set (o1 := {| Heap.v_time :=
                  {| Heap.base := Heap.base (Heap.v_time o);
                     Heap.rows := Heap.keep_rows P (time d)
                                    (Heap.rows (Heap.v_time o)) |};
                Heap.v_lat := Heap.v_lat o; Heap.v_lon := Heap.v_lon o;
                Heap.v_z :=
                  {| Heap.base := Heap.base (Heap.v_z o);
                     Heap.rows := Heap.keep_rows P (time d)
                                    (Heap.rows (Heap.v_z o)) |} |}).
  set (l1 := fresh (dom (Heap.objects s))).
  set (s1 := {| Heap.buffers := Heap.buffers s;
                Heap.objects := <[l1 := o1]> (Heap.objects s) |}).
  set (o2 := {| Heap.v_time :=
                  {| Heap.base := Heap.base (Heap.v_time o);
                     Heap.rows := PySlice.slice (Some 0%Z) (Some (- k)%Z)
                                    (Heap.keep_rows P (time d)
                                       (Heap.rows (Heap.v_time o))) |};
                Heap.v_lat := Heap.v_lat o; Heap.v_lon := Heap.v_lon o;
                Heap.v_z :=
                  {| Heap.base := Heap.base (Heap.v_z o);
                     Heap.rows := PySlice.slice (Some 0%Z) (Some (- k)%Z)
                                    (Heap.keep_rows P (time d)
                                       (Heap.rows (Heap.v_z o))) |} |}).
  set (l2 := fresh (dom (Heap.objects s1))).
  set (s2 := {| Heap.buffers := Heap.buffers s;
                Heap.objects := <[l2 := o2]> (Heap.objects s1) |}).
  set (ts2 := PySlice.slice (Some 0%Z) (Some (- k)%Z) (filter (λ t, P t) (time d))).
  set (ts' := map (λ t, (t + Calendar.timedelta64_D 5)%Z) ts2).
  set (b := fresh (dom (Heap.buffers s))).
  set (s3 := {| Heap.buffers := <[b := Heap.TimeBuf ts']> (Heap.buffers s);
                Heap.objects := Heap.objects s2 |}).
  set (o3 := {| Heap.v_time := Heap.whole b ts';
                Heap.v_lat := Heap.v_lat o; Heap.v_lon := Heap.v_lon o;
                Heap.v_z := Heap.v_z o2 |}).
  set (s4 := {| Heap.buffers := Heap.buffers s3;
                Heap.objects := <[l2 := o3]> (Heap.objects s3) |}).
  assert (Heap.objects s !! l1 = None) as Hl1 by apply fresh_object_None.
  assert (Heap.objects s1 !! l2 = None) as Hl2 by apply fresh_object_None.
  assert (Heap.buffers s !! b = None) as Hb by apply fresh_buffer_None.
  assert (l2 ≠ l1) as Hl21.
  { intros E. rewrite E in Hl2. cbn in Hl2. by rewrite lookup_insert_eq in Hl2. }
  assert (Heap.objects s !! l2 = None) as Hl2s.
  { cbn in Hl2. by rewrite lookup_insert_ne in Hl2. }
  assert (Heap.buffers s ⊆ Heap.buffers s4) as Hsub
    by (cbn; by apply insert_subseteq).
  assert (Heap.time_of s (Heap.v_time o2) = Some ts2) as Ht2
    by by apply time_of_selected.
  assert (Heap.ds_sel_time test_years z500 s = Some (l1, s1)) as H1.
  { unfold Heap.ds_sel_time, mbind, Heap.M_bind, Heap.get_object, Heap.read_time.
    rewrite Ho. cbn. by rewrite Ht. }
  assert (Heap.ds_isel_time (Some 0%Z) (Some (- k)%Z) l1 s1 = Some (l2, s2)) as H2.
  { unfold Heap.ds_isel_time, mbind, Heap.M_bind, Heap.get_object.
    cbn [Heap.objects s1]. by rewrite lookup_insert_eq. }
  assert (Heap.ds_time_plus l2 (Calendar.timedelta64_D 5) s2
          = Some (Heap.whole b ts', s3)) as H3.
  { unfold Heap.ds_time_plus, mbind, Heap.M_bind, Heap.get_object, Heap.read_time.
    cbn [Heap.objects s2]. rewrite lookup_insert_eq. cbn [fmap option_fmap option_map].
    change (Heap.time_of s2 (Heap.v_time o2)) with (Heap.time_of s (Heap.v_time o2)).
    rewrite Ht2. reflexivity. }
  assert (Heap.ds_setitem_time l2 (Heap.whole b ts') s3 = Some ((), s4)) as H4.
  { unfold Heap.ds_setitem_time, mbind, Heap.M_bind, Heap.get_object,
      Heap.set_object.
    cbn [Heap.objects s3 s2]. rewrite lookup_insert_eq.
    cbn [fmap option_fmap option_map Heap.objects s3 s2].
    rewrite lookup_insert_eq. reflexivity. }
  exists l2, s4. split; [|split; [|split; [done|split; [|split; [|split]]]]].
  - unfold Heap.persistence_cell, mbind, Heap.M_bind.
    by rewrite H1, H2, H3, H4.
  - intros E. rewrite E in Hl2s. by rewrite Ho in Hl2s.
  - unfold Heap.load. cbn [Heap.objects s4]. rewrite lookup_insert_eq. cbn.
    assert (Heap.denote s4 o3
            = Some {| time := ts'; lat := lat d; lon := lon d;
                      values := PySlice.slice (Some 0%Z) (Some (- k)%Z)
                                  (values (sel_time test_years d)) |}) as ->.
    { apply denote_intro.
      - unfold Heap.time_of. cbn. rewrite lookup_insert_eq. apply pick_whole.
      - by apply (coord_of_mono s).
      - by apply (coord_of_mono s).
      - apply (data_of_mono s); [done|]. by apply data_of_selected. }
    done.
  - unfold Heap.load. cbn [Heap.objects s4 s3 s2 s1].
    rewrite !lookup_insert_ne by congruence. rewrite Ho. cbn.
    by apply (denote_mono s).
  - intros l d' Hl. unfold Heap.load in *.
    destruct (Heap.objects s !! l) as [ol|] eqn:El; [|done].
    cbn [Heap.objects s4 s3 s2 s1].
    rewrite !lookup_insert_ne by congruence. rewrite El. cbn.
    by apply (denote_mono s).
  - intros b' x Hb'. by apply (lookup_weaken _ _ _ _ Hb' Hsub).
Qed.

Lemma persistence_cell_frame_witness :
  ∃ fc s', Heap.persistence_cell 1%positive 1 (Examples.new_year_store 1 2 3)
           = Some (fc, s')
    ∧ fc ≠ 1%positive
    ∧ Heap.load fc s'
      = Some (persistence (sel_time test_years (Examples.around_new_year 1 2 3)) 1)
    ∧ Heap.load 1%positive s' = Some (Examples.around_new_year 1 2 3).
Proof.
  destruct (persistence_cell_frame (Examples.new_year_store 1 2 3) 1%positive 1
              (Examples.around_new_year 1 2 3))
    as (fc & s' & Hrun & Hne & _ & Hfc & Hz & _).
  - reflexivity.
  - exists fc, s'. by repeat split.
Defined.

(** The scenario of three time steps on latitudes 0 and 60 degrees: a
    forecast of zeros against a truth of ones is at distance exactly 1,
    whatever the weights. *)
Example computed_weighted_rmse_constant_error :
  computed_weighted_rmse (Examples.constant_3x2x2 0) (Examples.constant_3x2x2 1)
  = Ok (Fin 1).
Proof.
  rewrite rmse_identical_axes by done. f_equal.
  unfold Spec.computeWeightedRMSE. rewrite <- weights_lat_spec.
  cbn [lat values Examples.constant_3x2x2].
  pose proof (cos_deg_pos 60 ltac:(lra)) as Hc.
  set (c := cos (deg2rad 60)) in *.
  assert (nanmean (cos_lat [0; 60]%R) = Fin ((1 + c) / 2)) as Hm.
  { rewrite nanmean_cos_lat by done. cbn. rewrite cos_deg_0. fold c.
    f_equal. field. }
  rewrite (weights_lat_Fin _ _ Hm) by lra.
  cbn [cosines map]. rewrite cos_deg_0. fold c.
  cbn [replicate Spec.squared_error Spec.weight_rows zip_with map concat app
         nsquare nsub nadd nopp nmul].
  set (a := ((0 + - 1) * (0 + - 1) * (1 / ((1 + c) / 2)))%R).
  set (b := ((0 + - 1) * (0 + - 1) * (c / ((1 + c) / 2)))%R).
  change (nsqrt (nanmean (map Fin [a; a; b; b; a; a; b; b; a; a; b; b])) = Fin 1).
  rewrite nanmean_Fin by done.
  replace (Rsum [a; a; b; b; a; a; b; b; a; a; b; b]
           / INR (length [a; a; b; b; a; a; b; b; a; a; b; b]))%R with 1%R
    by (subst a b; cbn; field; lra).
  rewrite nsqrt_Fin by lra. f_equal. apply sqrt_1.
Qed.


(** The climatology score on three entries around the new year of 2017:
    the entry of 2016 plays no part, the two entries of 2017 are compared
    with the table entry of day 1. *)
Example clim_rmse_new_year :
  clim_rmse (Examples.new_year_table 4) (Examples.around_new_year 1 2 3)
  = Ok (Fin (sqrt (5 / 2))).
Proof.
  rewrite clim_rmse_target;
    [|apply (bool_decide_unpack _); vm_compute; exact I|done].
  assert (clim_fc (Examples.new_year_table 4) (Examples.around_new_year 1 2 3)
          = Ok {| time := [Calendar.datetime64 2017 1 1 0;
                           Calendar.datetime64 2017 1 1 12];
                  lat := [0%R]; lon := [0%R];
                  values := [[[Fin 4]]; [[Fin 4]]] |}) as -> by reflexivity.
  assert (target (Examples.around_new_year 1 2 3)
          = {| time := [Calendar.datetime64 2017 1 1 0;
                        Calendar.datetime64 2017 1 1 12];
               lat := [0%R]; lon := [0%R];
               values := [[[Fin 2]]; [[Fin 3]]] |}) as -> by reflexivity.
  cbn [mbind result_bind].
  rewrite rmse_identical_axes by done. f_equal.
  unfold Spec.computeWeightedRMSE. rewrite <- weights_lat_spec.
  cbn [lat values]. rewrite weights_lat_equator.
  cbn [Spec.squared_error Spec.weight_rows zip_with map concat app
         nsquare nsub nadd nopp nmul].
  set (a := ((4 + - 2) * (4 + - 2) * 1)%R).
  set (b := ((4 + - 3) * (4 + - 3) * 1)%R).
  change (nsqrt (nanmean (map Fin [a; b])) = Fin (sqrt (5 / 2))).
  rewrite nanmean_Fin by done.
  replace (Rsum [a; b] / INR (length [a; b]))%R with (5 / 2)%R
    by (subst a b; cbn; field).
  by rewrite nsqrt_Fin by lra.
Qed.

(** The persistence score on twelve half-daily entries of 2017 holding
    0 to 11: the forecast keeps entries 0 and 1 and labels them five days
    on, where the truth holds 10 and 11; the other ten entries of the truth
    have no partner and are left out. *)
Example persistence_rmse_half_daily :
  persistence_rmse Examples.half_daily_12 = Ok (Fin 10).
Proof.
  unfold persistence_rmse.
  set (t10 := Calendar.datetime64 2017 1 6 0).
  set (t11 := Calendar.datetime64 2017 1 6 12).
  assert (persistence_fc Examples.half_daily_12
          = {| time := [t10; t11]; lat := [0%R]; lon := [0%R];
               values := [[[Fin 0]]; [[Fin 1]]] |}) as Hfc.
  { unfold persistence_fc.
    destruct (persistence_unfold (sel_time test_years Examples.half_daily_12)
                lead_time_steps) as (Ht & Hv & Hla & Hlo); [done|].
    destruct (persistence _ _) as [t la lo v]. cbn [time lat lon values] in *.
    rewrite Ht, Hla, Hlo, Hv by (vm_compute; reflexivity).
    f_equal; vm_compute; reflexivity. }
  rewrite (rmse_joined _ _ [t10; t11] [0%R] [0%R]).
  - f_equal. unfold rmse_of_error, error_on. cbn [lat].
    rewrite weights_lat_equator, Hfc.
    assert (values (reindex_like (target Examples.half_daily_12)
                      [t10; t11] [0%R] [0%R])
            = [[[Fin 10]]; [[Fin 11]]]) as ->.
    { change (reindex_like (target Examples.half_daily_12) [t10; t11] [0%R] [0%R])
        with (reindex_like (target Examples.half_daily_12) [t10; t11]
                (lat (target Examples.half_daily_12))
                (lon (target Examples.half_daily_12))).
      rewrite values_reindex_like_time. vm_compute. reflexivity. }
    assert (values (reindex_like
                      {| time := [t10; t11]; lat := [0%R]; lon := [0%R];
                         values := [[[Fin 0]]; [[Fin 1]]] |}
                      [t10; t11] [0%R] [0%R])
            = [[[Fin 0]]; [[Fin 1]]]) as ->
      by apply (values_reindex_like_same
                  {| time := [t10; t11]; lat := [0%R]; lon := [0%R];
                     values := [[[Fin 0]]; [[Fin 1]]] |}).
    cbn [weighted_squares values zip_with map concat app
           nsquare nsub nadd nopp nmul].
    set (a := ((0 + - 10) * (0 + - 10) * 1)%R).
    set (b := ((1 + - 11) * (1 + - 11) * 1)%R).
    change (nsqrt (nanmean (map Fin [a; b])) = Fin 10).
    rewrite nanmean_Fin by done.
    replace (Rsum [a; b] / INR (length [a; b]))%R with (10 * 10)%R
      by (subst a b; cbn; field).
    rewrite nsqrt_Fin by lra. f_equal. apply sqrt_square. lra.
  - rewrite Hfc. vm_compute. reflexivity.
  - rewrite Hfc. apply join_same.
  - rewrite Hfc. apply join_same.
Qed.

(** * Further properties of the notebook code *)

(** ** Symmetry *)

(** The metric is symmetric: for two fields whose axes are in increasing
    order, whatever labels they share, exchanging forecast and truth gives
    the same result. *)
Theorem computed_weighted_rmse_sym (fc gt : DataArray) :
  sorted_axes fc → sorted_axes gt →
  computed_weighted_rmse fc gt = computed_weighted_rmse gt fc.
Proof.
  intros Hfc Hgt.
  destruct (sorted_axes_unique _ Hfc) as (Ht1 & Hla1 & Hlo1).
  destruct (sorted_axes_unique _ Hgt) as (Ht2 & Hla2 & Hlo2).
  destruct Hfc as (Hst1 & Hsla1 & Hslo1), Hgt as (Hst2 & Hsla2 & Hslo2).
  rewrite (rmse_joined fc gt _ _ _ (join_unique _ _ Ht1 Ht2)
             (join_unique _ _ Hla1 Hla2) (join_unique _ _ Hlo1 Hlo2)).
  rewrite (rmse_joined gt fc _ _ _ (join_unique _ _ Ht2 Ht1)
             (join_unique _ _ Hla2 Hla1) (join_unique _ _ Hlo2 Hlo1)).
  rewrite (list_intersection_sorted_comm Z.lt (time gt) (time fc))
    by (done || intros; lia).
  rewrite (list_intersection_sorted_comm Rlt (lat gt) (lat fc))
    by (done || intros; lra).
  rewrite (list_intersection_sorted_comm Rlt (lon gt) (lon fc))
    by (done || intros; lra).
  f_equal. unfold error_on. rewrite !rmse_of_error_spec.
  unfold Spec.computeWeightedRMSE. by rewrite squared_error_sym.
Qed.

Lemma computed_weighted_rmse_sym_witness :
  computed_weighted_rmse (Examples.two_steps 3 5) (Examples.one_cell 0 3)
  = computed_weighted_rmse (Examples.one_cell 0 3) (Examples.two_steps 3 5).
Proof.
  apply (computed_weighted_rmse_sym (Examples.two_steps 3 5)
           (Examples.one_cell 0 3)).
  - split; [|split]; repeat constructor.
  - split; [|split]; repeat constructor.
Defined.

(** ** What the persistence forecast keeps *)

Section persistence_slices.
#[local] Open Scope Z_scope.

Lemma slice_sublist {A} (start stop : option Z) (l : list A) :
  PySlice.slice start stop l `sublist_of` l.
Proof.
  unfold PySlice.slice. destruct (PySlice.bounds _ _ _) as [lo len].
  etrans; [apply sublist_take|apply sublist_drop].
Qed.

Lemma length_slice_eq {A B} (start stop : option Z) (l : list A) (k : list B) :
  length l = length k →
  length (PySlice.slice start stop l) = length (PySlice.slice start stop k).
Proof.
  intros Hlen. unfold PySlice.slice. rewrite Hlen.
  destruct (PySlice.bounds _ _ _) as [lo len].
  by rewrite !length_take, !length_drop, Hlen.
Qed.

Lemma Forall_slice {A} (P : A → Prop) (start stop : option Z) (l : list A) :
  Forall P l → Forall P (PySlice.slice start stop l).
Proof.
  intros Hl. unfold PySlice.slice. destruct (PySlice.bounds _ _ _) as [lo len].
  by apply Forall_take, Forall_drop.
Qed.

Lemma StronglySorted_take {A} (R : relation A) n (l : list A) :
  StronglySorted R l → StronglySorted R (take n l).
Proof.
  intros Hl. revert n. induction Hl as [|x l _ IH Hall]; intros [|n]; cbn;
    try constructor; [done|]. by apply Forall_take.
Qed.

Lemma StronglySorted_drop {A} (R : relation A) n (l : list A) :
  StronglySorted R l → StronglySorted R (drop n l).
Proof.
  intros Hl. revert n. induction Hl as [|x l Hl IH Hall]; intros [|n]; cbn;
    try by constructor. apply IH.
Qed.

Lemma StronglySorted_slice {A} (R : relation A) start stop (l : list A) :
  StronglySorted R l → StronglySorted R (PySlice.slice start stop l).
Proof.
  intros Hl. unfold PySlice.slice. destruct (PySlice.bounds _ _ _) as [lo len].
  by apply StronglySorted_take, StronglySorted_drop.
Qed.

Lemma slice_zero_zero {A} (l : list A) :
  PySlice.slice (Some 0) (Some (- 0)) l = [].
Proof.
  unfold PySlice.slice, PySlice.bounds, PySlice.clip.
  change (- 0) with 0. unfold default, Datatypes.id.
  change (0 <? 0) with false. cbv iota.
  replace (0 `min` Z.of_nat (length l)) with 0 by lia. done.
Qed.
End persistence_slices.

(** The persistence forecast, as the code builds it. With a positive lead
    [k] on a field of [n] time entries it holds the first [n - k] entries
    (none when [k >= n]), each with the values it had and a label exactly
    five days later, on the same grid. With the lead 0 the slice
    [slice(0, -0)] is empty: the forecast has no entry at all. *)
Theorem persistence_entries (f : DataArray) (k : Z) :
  length (values f) = length (time f) →
  let fc := persistence f k in
  let m := (length (time f) - Z.to_nat k)%nat in
  lat fc = lat f ∧ lon fc = lon f
  ∧ (k = 0%Z → time fc = [] ∧ values fc = [])
  ∧ ((0 < k)%Z →
     length (time fc) = m ∧ length (values fc) = m
     ∧ ∀ i, i < m →
         values fc !! i = values f !! i
         ∧ time fc !! i
           = (λ t, (t + Calendar.timedelta64_D 5)%Z) <$> time f !! i).
Proof.
  intros Hlen fc m. split; [done|]. split; [done|]. split.
  - intros ->. unfold fc, persistence, assign_time, isel_time.
    cbn [time values]. by rewrite !slice_zero_zero.
  - intros Hk.
    destruct (persistence_unfold f k Hk) as (Ht & Hv & _).
    fold fc m in Ht, Hv. rewrite Ht, (Hv Hlen).
    rewrite length_map, !length_take, Hlen.
    split; [lia|]. split; [lia|].
    intros i Hi. rewrite list_lookup_fmap, !lookup_take_lt by done. done.
Qed.

Lemma persistence_entries_witness :
  length (time (persistence Examples.hourly_12 10)) = 2
  ∧ length (values (persistence Examples.hourly_12 10)) = 2.
Proof.
  destruct (persistence_entries Examples.hourly_12 10) as (_ & _ & _ & H);
    [done|].
  destruct H as (Ht & Hv & _); [done|]. by split.
Defined.

(** The persistence forecast of a well-formed field is well-formed: the
    value array has the shape of the axes, no label is repeated, and axes
    in increasing order stay in increasing order, for every lead. *)
Theorem persistence_well_formed (f : DataArray) (k : Z) :
  shape_ok f →
  shape_ok (persistence f k)
  ∧ (unique_labels f → unique_labels (persistence f k))
  ∧ (sorted_axes f → sorted_axes (persistence f k)).
Proof.
  intros [Hlen Hblocks]. unfold persistence, assign_time, isel_time.
  split; [|split].
  - split; cbn [time lat lon values].
    + rewrite length_map. by apply length_slice_eq.
    + by apply Forall_slice.
  - intros (Ht & Hla & Hlo). split; [|by split]. cbn [time].
    apply NoDup_fmap_2_strong.
    + intros x y _ _ Hxy. lia.
    + eapply sublist_NoDup; [exact Ht|apply slice_sublist].
  - intros (Ht & Hla & Hlo). split; [|by split]. cbn [time].
    apply (StronglySorted_fmap _ Z.lt Z.lt); [intros x y; lia|].
    by apply StronglySorted_slice.
Qed.

Lemma persistence_well_formed_witness :
  shape_ok (persistence (Examples.two_steps 3 5) 1).
Proof.
  apply (persistence_well_formed (Examples.two_steps 3 5) 1).
  split; [done|]. repeat constructor.
Defined.

(** ** The persistence score on a regular cadence *)

Section persistence_score.

Lemma drop_zip {A B} n (l : list A) (k : list B) :
  drop n (zip l k) = zip (drop n l) (drop n k).
Proof. apply zip_with_drop. Qed.

(** Reindexing to the labels from position [n] on is dropping the first
    [n] rows. *)
Lemma conform_drop {L} `{EqDecision L} {A} (fill : A) n
    (idx : list L) (data : list A) :
  NoDup idx → length idx = length data →
  conform fill idx (drop n idx) data = drop n data.
Proof.
  intros Hnd Hlen. unfold conform.
  destruct (decide (idx = drop n idx)) as [E|_].
  - apply (f_equal length) in E. rewrite length_drop in E.
    destruct (decide (n = 0)) as [->|Hn]; [done|].
    assert (length data = 0) as Hz by lia.
    apply nil_length_inv in Hz. subst data. by rewrite drop_nil.
  - replace (drop n idx) with (map fst (drop n (zip idx data))).
    + rewrite reindex_zip; [|done|].
      * by rewrite drop_zip, snd_zip by (rewrite !length_drop; lia).
      * intros p Hp. eapply elem_of_sublist; [done|apply sublist_drop].
    + by rewrite drop_zip, fst_zip by (rewrite !length_drop; lia).
Qed.
End persistence_score.

(** On a field whose timestamps advance by five days every [k] steps
    (ten steps at the twelve-hourly cadence), scoring the persistence
    forecast against the field compares every entry with the entry [k]
    steps later, and with nothing else: the result is the metric of the
    first [n - k] entries against the last [n - k]. *)
Theorem persistence_rmse_shifted (f : DataArray) (k : Z) :
  shape_ok f → NoDup (time f) → (0 < k)%Z →
  let m := (length (time f) - Z.to_nat k)%nat in
  map (λ t, (t + Calendar.timedelta64_D 5)%Z) (take m (time f))
  = drop (Z.to_nat k) (time f) →
  computed_weighted_rmse (persistence f k) f
  = Ok (Spec.computeWeightedRMSE (lat f)
          (take m (values f)) (drop (Z.to_nat k) (values f))).
Proof.
  intros [Hlen _] Hnd Hk m Hcad.
  destruct (persistence_unfold f k Hk) as (Ht & Hv & Hla & Hlo).
  fold m in Ht, Hv. specialize (Hv Hlen). rewrite Hcad in Ht.
  assert (join (time (persistence f k)) (time f)
          = Ok (drop (Z.to_nat k) (time f))) as Hjt.
  { rewrite Ht, join_unique; [|eapply sublist_NoDup; [done|apply sublist_drop]|done].
    f_equal. apply list_intersection_subseteq. intros t Hin.
    eapply elem_of_sublist; [done|apply sublist_drop]. }
  rewrite (rmse_joined _ _ _ (lat f) (lon f) Hjt)
    by (rewrite ?Hla, ?Hlo; apply join_same).
  f_equal. unfold error_on.
  assert (values (reindex_like (persistence f k) (drop (Z.to_nat k) (time f))
                    (lat f) (lon f)) = take m (values f)) as ->.
  { rewrite <- Ht, <- Hla, <- Hlo. by rewrite values_reindex_like_same. }
  assert (values (reindex_like f (drop (Z.to_nat k) (time f)) (lat f) (lon f))
          = drop (Z.to_nat k) (values f)) as ->.
  { rewrite values_reindex_like_time. by apply conform_drop. }
  apply rmse_of_error_spec.
Qed.

Lemma persistence_rmse_shifted_witness :
  computed_weighted_rmse (persistence Examples.half_daily_12 10)
    Examples.half_daily_12
  = Ok (Spec.computeWeightedRMSE [0%R]
          (take 2 (values Examples.half_daily_12))
          (drop 10 (values Examples.half_daily_12))).
Proof.
  apply (persistence_rmse_shifted Examples.half_daily_12 10).
  - split; [done|]. repeat constructor.
  - apply (bool_decide_unpack _). vm_compute. exact I.
  - done.
  - vm_compute. reflexivity.
Defined.

(** ** The persistence score at any cadence *)

Section persistence_five_days.
#[local] Open Scope Z_scope.

Lemma list_intersection_app {L} `{EqDecision L} (a1 a2 b : list L) :
  list_intersection (a1 ++ a2) b
  = list_intersection a1 b ++ list_intersection a2 b.
Proof.
  induction a1 as [|x a1 IH]; [done|]. cbn.
  destruct (decide_rel elem_of x b); cbn; by rewrite IH.
Qed.

Lemma list_intersection_disjoint {L} `{EqDecision L} (a b : list L) :
  (∀ x, x ∈ a → x ∉ b) → list_intersection a b = [].
Proof.
  induction a as [|x a IH]; [done|]. intros Hd. cbn.
  destruct (decide_rel elem_of x b) as [Hx|_].
  - exfalso. apply (Hd x); [left|done].
  - apply IH. intros y Hy. apply Hd. by right.
Qed.

Lemma sorted_lookup_lt (l : list Z) (i j : nat) x y :
  StronglySorted Z.lt l → l !! i = Some x → l !! j = Some y →
  (i < j)%nat → x < y.
Proof.
  intros Hs. revert i j. induction Hs as [|z l Hs IH Hall];
    intros [|i] [|j] Hi Hj Hij; try done; try lia.
  - cbn in Hi, Hj. injection Hi as ->.
    apply (proj1 (Forall_forall _ _) Hall). by eapply list_elem_of_lookup_2.
  - cbn in Hi, Hj. apply (IH i j); [done..|lia].
Qed.

(** Reindexing to a leading part of the labels keeps the leading rows. *)
Lemma conform_prefix {L} `{EqDecision L} {A} (fill : A)
    (a b : list L) (va vb : list A) :
  NoDup (a ++ b) → length a = length va → length b = length vb →
  conform fill (a ++ b) a (va ++ vb) = va.
Proof.
  intros Hnd Ha Hb. unfold conform.
  destruct (decide (a ++ b = a)) as [E|_].
  - apply (f_equal length) in E. rewrite length_app in E.
    assert (length vb = 0%nat) as Hz by lia.
    apply nil_length_inv in Hz. subst vb. by rewrite app_nil_r.
  - replace a with (map fst (zip a va)) at 2 by by rewrite fst_zip by lia.
    rewrite reindex_zip; [by rewrite snd_zip by lia|done|].
    intros p Hp. rewrite zip_with_app by done.
    apply elem_of_app. by left.
Qed.
End persistence_five_days.

(** Whatever the lead [k], the persistence score is a five-day
    persistence score. On a field in time order whose timestamps advance by
    five days every [j] steps, with [k <= j], the forecast of lead [k]
    scored against the field compares every entry with the entry [j] steps
    later, not [k] steps later: the result is the metric of the first
    [n - j] entries against the last [n - j]. The forecast entries beyond
    them carry labels after the end of the field and are dropped. *)
Theorem persistence_rmse_five_days (f : DataArray) (k : Z) (j : nat) :
  shape_ok f → StronglySorted Z.lt (time f) → (0 < k)%Z →
  Z.to_nat k ≤ j → j < length (time f) →
  let p := (length (time f) - j)%nat in
  map (λ t, (t + Calendar.timedelta64_D 5)%Z) (take p (time f))
  = drop j (time f) →
  computed_weighted_rmse (persistence f k) f
  = Ok (Spec.computeWeightedRMSE (lat f)
          (take p (values f)) (drop j (values f))).
Proof.
  intros [Hlen _] Hs Hk Hkj Hj p Hcad.
  assert (NoDup (time f)) as Hnd
    by (apply (StronglySorted_NoDup Z.lt); [intros x; lia|done]).
  destruct (persistence_unfold f k Hk) as (Ht & Hv & Hla & Hlo).
  specialize (Hv Hlen).
  set (m := (length (time f) - Z.to_nat k)%nat) in *.
  set (S5 := λ t : Z, (t + Calendar.timedelta64_D 5)%Z) in *.
  assert (NoDup (time (persistence f k))) as Hndfc.
  { rewrite Ht. apply NoDup_fmap_2_strong.
    - intros x y _ _ Hxy. unfold S5 in Hxy. lia.
    - eapply sublist_NoDup; [exact Hnd|apply sublist_take]. }
  assert (take m (time f) = take p (time f) ++ drop p (take m (time f)))
    as Hsplit.
  { rewrite <- (take_drop p (take m (time f))) at 1.
    by rewrite take_take, Nat.min_l by (unfold p, m; lia). }
  assert (take m (values f) = take p (values f) ++ drop p (take m (values f)))
    as Hsplitv.
  { rewrite <- (take_drop p (take m (values f))) at 1.
    by rewrite take_take, Nat.min_l by (unfold p, m; lia). }
  rewrite Hsplit, map_app, Hcad in Ht. rewrite Hsplitv in Hv.
  set (rest := map S5 (drop p (take m (time f)))) in *.
  (* the labels of the remaining entries lie after the end of the field *)
  assert (∀ x, x ∈ rest → x ∉ time f) as Hout.
  { intros y (x & -> & Hx)%list_elem_of_fmap Hin.
    apply list_elem_of_lookup_1 in Hx as (i & Hi).
    rewrite lookup_drop in Hi. apply lookup_take_Some in Hi as [Hi _].
    apply list_elem_of_lookup_1 in Hin as (q & Hq).
    pose proof (lookup_lt_Some _ _ _ Hq) as Hqn.
    destruct (lookup_lt_is_Some_2 (time f) (p - 1)) as [a Ha];
      [unfold p; lia|].
    assert (drop j (time f) !! (p - 1)%nat = Some (S5 a)) as Hz.
    { rewrite <- Hcad, list_lookup_fmap, lookup_take_lt by (unfold p; lia).
      by rewrite Ha. }
    rewrite lookup_drop in Hz.
    replace (j + (p - 1))%nat with (length (time f) - 1)%nat in Hz
      by (unfold p; lia).
    assert (a < x)%Z as Hax
      by (apply (sorted_lookup_lt (time f) (p - 1) (p + i)); [done..|lia]).
    assert (S5 x <= S5 a)%Z as Hle.
    { destruct (decide (q = (length (time f) - 1)%nat)) as [->|Hne].
      - rewrite Hz in Hq. injection Hq as ->. done.
      - apply Z.lt_le_incl.
        apply (sorted_lookup_lt (time f) q (length (time f) - 1));
          [done..|lia]. }
    unfold S5 in Hle. lia. }
  assert (join (time (persistence f k)) (time f) = Ok (drop j (time f)))
    as Hjt.
  { rewrite join_unique by done. f_equal.
    rewrite Ht, list_intersection_app, (list_intersection_disjoint rest)
      by done.
    rewrite app_nil_r. apply list_intersection_subseteq. intros t Hin.
    eapply elem_of_sublist; [done|apply sublist_drop]. }
  rewrite (rmse_joined _ _ _ (lat f) (lon f) Hjt)
    by (rewrite ?Hla, ?Hlo; apply join_same).
  f_equal. unfold error_on.
  assert (values (reindex_like (persistence f k) (drop j (time f))
                    (lat f) (lon f)) = take p (values f)) as ->.
  { rewrite <- Hla, <- Hlo, values_reindex_like_time, Hv.
    rewrite Ht at 1. rewrite Ht in Hndfc. apply conform_prefix; [done|..].
    - rewrite length_drop, length_take. unfold p. lia.
    - unfold rest. rewrite length_map, !length_drop, !length_take. lia. }
  assert (values (reindex_like f (drop j (time f)) (lat f) (lon f))
          = drop j (values f)) as ->.
  { rewrite values_reindex_like_time. by apply conform_drop. }
  apply rmse_of_error_spec.
Qed.

Lemma persistence_rmse_five_days_witness :
  computed_weighted_rmse (persistence daily_7 2) daily_7
  = Ok (Spec.computeWeightedRMSE [0%R]
          (take 2 (values daily_7)) (drop 5 (values daily_7))).
Proof.
  apply (persistence_rmse_five_days daily_7 2 5).
  - split; [done|]. repeat constructor.
  - apply (bool_decide_unpack _). vm_compute. exact I.
  - done.
  - vm_compute. lia.
  - vm_compute. lia.
  - vm_compute. reflexivity.
Defined.

(** ** The three splits *)

(** The training, validation and test selections share no timestamp, each
    holds only timestamps of the dataset, and every timestamp of the years
    1979 to 2018 falls in exactly one of them: 1979-2015 trains, 2016
    validates, 2017-2018 tests. *)
Theorem splits_disjoint (z500 : DataArray) (t : Z) :
  let tr := time (sel_time train_years z500) in
  let va := time (sel_time valid_years z500) in
  let te := time (sel_time test_years z500) in
  ¬ (t ∈ tr ∧ t ∈ va) ∧ ¬ (t ∈ tr ∧ t ∈ te) ∧ ¬ (t ∈ va ∧ t ∈ te)
  ∧ (t ∈ tr ∨ t ∈ va ∨ t ∈ te
     ↔ t ∈ time z500 ∧ (1979 ≤ Calendar.year t ≤ 2018)%Z)
  ∧ (t ∈ tr ↔ t ∈ time z500 ∧ (1979 ≤ Calendar.year t ≤ 2015)%Z)
  ∧ (t ∈ va ↔ t ∈ time z500 ∧ Calendar.year t = 2016%Z)
  ∧ (t ∈ te ↔ t ∈ time z500 ∧ (2017 ≤ Calendar.year t ≤ 2018)%Z).
Proof.
  intros tr va te. unfold tr, va, te.
  rewrite !elem_of_sel_time. unfold train_years, valid_years, test_years.
  cbn [fst snd]. generalize (Calendar.year t) (t ∈ time z500).
  intros y P. repeat split; try (intuition lia).
  intros [HP Hy].
  destruct (Z_le_gt_dec y 2015); [left; split; [lia|done]|right].
  destruct (Z_le_gt_dec y 2016); [left|right]; (split; [lia|done]).
Qed.

(** ** Inputs and targets of the network *)

Section pairs.
#[local] Open Scope Z_scope.

Lemma slice_until_last {A} (k : Z) (l : list A) :
  0 < k →
  PySlice.slice None (Some (- k)) l = take (length l - Z.to_nat k)%nat l.
Proof. apply (slice_drop_last k l). Qed.

Lemma slice_until_zero {A} (l : list A) :
  PySlice.slice None (Some (- 0)) l = [].
Proof. apply (slice_zero_zero l). Qed.

Lemma slice_from {A} (k : Z) (l : list A) :
  0 <= k → PySlice.slice (Some k) None l = drop (Z.to_nat k) l.
Proof.
  intros Hk. unfold PySlice.slice, PySlice.bounds, PySlice.clip.
  unfold default, Datatypes.id.
  destruct (k <? 0) eqn:E1; [apply Z.ltb_lt in E1; lia|].
  destruct (Z.of_nat (length l) <? 0) eqn:E2; [apply Z.ltb_lt in E2; lia|].
  rewrite Z.min_id.
  destruct (Z_le_gt_dec k (Z.of_nat (length l))).
  - rewrite Z.min_l by lia. apply take_ge. rewrite length_drop. lia.
  - rewrite Z.min_r by lia. rewrite Nat2Z.id.
    rewrite !drop_ge by lia. by rewrite take_nil.
Qed.

Lemma expand_last_map (f : number → number) (v : list (list (list number))) :
  expand_last (map (map (map f)) v) = map (map (map (λ x, [f x]))) v.
Proof.
  unfold expand_last. rewrite map_map. apply map_ext. intros b.
  rewrite map_map. apply map_ext. intros r. by rewrite map_map.
Qed.

Lemma X_of_positive (f : number → number) (k : Z) (d : DataArray) :
  0 < k →
  X_of k (map_values f d)
  = map (map (map (λ x, [f x])))
        (take (length (values d) - Z.to_nat k)%nat (values d)).
Proof.
  intros Hk. by rewrite X_of_map_values, expand_last_map, slice_until_last.
Qed.

Lemma Y_of_nonnegative (f : number → number) (k : Z) (d : DataArray) :
  0 <= k →
  Y_of k (map_values f d)
  = map (map (map (λ x, [f x]))) (drop (Z.to_nat k) (values d)).
Proof.
  intros Hk. by rewrite Y_of_map_values, expand_last_map, slice_from.
Qed.

Lemma X_of_zero (f : number → number) (d : DataArray) :
  X_of 0 (map_values f d) = [].
Proof. by rewrite X_of_map_values, slice_until_zero. Qed.

(** Entry [i] of the inputs is entry [i] of the data and entry [i] of the
    targets is entry [i + k], both normalised. *)
Lemma pairs_lookup {A B} (E : A → B) (k : nat) (raw : list A) :
  let m := (length raw - k)%nat in
  length (map E (take m raw)) = m ∧ length (map E (drop k raw)) = m
  ∧ ∀ i, (i < m)%nat →
      map E (take m raw) !! i = E <$> raw !! i
      ∧ map E (drop k raw) !! i = E <$> raw !! (i + k)%nat.
Proof.
  intros m. rewrite !length_map, length_take, length_drop.
  split; [lia|]. split; [done|]. intros i Hi.
  rewrite !list_lookup_fmap, lookup_take_lt, lookup_drop by done.
  by rewrite (Nat.add_comm k i).
Qed.
End pairs.

(** Inputs and targets of a split pair up. With a positive lead [k], a
    split of [n] time entries gives [n - k] inputs and as many targets
    (none when [k >= n]), and target [i] is the normalised field [k]
    entries after the field of input [i]. With the lead 0 the inputs are
    empty although the targets hold all [n] entries. *)
Theorem splits_pairs (lead_steps : Z) (z500 : DataArray) :
  let s := get_train_valid_test_dataset lead_steps z500 in
  let k := Z.to_nat lead_steps in
  let E := map (map (λ x, [ndiv (nsub x (mean s)) (std s)])) in
  let paired ys X Y :=
    let raw := values (sel_time ys z500) in
    length X = length raw - k ∧ length Y = length raw - k
    ∧ ∀ i, i < length raw - k →
        X !! i = E <$> raw !! i ∧ Y !! i = E <$> raw !! (i + k) in
  ((0 < lead_steps)%Z →
     paired train_years (X_train s) (Y_train s)
     ∧ paired valid_years (X_valid s) (Y_valid s)
     ∧ paired test_years (X_test s) (Y_test s))
  ∧ (lead_steps = 0%Z →
     X_train s = [] ∧ X_valid s = [] ∧ X_test s = []
     ∧ Y_train s = map E (values (sel_time train_years z500))
     ∧ Y_valid s = map E (values (sel_time valid_years z500))
     ∧ Y_test s = map E (values (sel_time test_years z500))).
Proof.
  intros s k E paired. unfold s, get_train_valid_test_dataset.
  cbn [X_train Y_train X_valid Y_valid X_test Y_test]. split.
  - intros Hk. unfold paired.
    rewrite !X_of_positive, !Y_of_nonnegative by lia.
    split; [|split]; apply (pairs_lookup E k).
  - intros ->. rewrite !X_of_zero, !Y_of_nonnegative by lia.
    by repeat split.
Qed.

Lemma splits_pairs_witness :
  let s := get_train_valid_test_dataset 1 Samples.train_and_test in
  length (X_test s) = 1 ∧ length (Y_test s) = 1.
Proof.
  intros s.
  destruct (splits_pairs 1 Samples.train_and_test) as [H _].
  destruct H as (_ & _ & HX & HY & _); [done|]. by split.
Defined.

(** ** What the predictions are scored against *)

(** The labels the network is trained on and the fields its predictions
    are scored against are the same entries of the test years: entry [i]
    of [Y_test] is entry [i] of
    [target.isel(time=slice(lead_time_steps, None))] under the
    normalisation, each cell wrapped in a channel axis. With a lead that
    is not negative that target is the test selection from position
    [lead_steps] on, values and timestamps alike, and with a positive
    lead it has as many entries as [X_test], hence as the predictions
    made from [X_test]. *)
Theorem evaluation_target_is_Y_test (lead_steps : Z) (z500 : DataArray) :
  let s := get_train_valid_test_dataset lead_steps z500 in
  let E := map (map (λ x, [ndiv (nsub x (mean s)) (std s)])) in
  let tgt := target_from lead_steps z500 in
  let k := Z.to_nat lead_steps in
  Y_test s = map E (values tgt)
  ∧ ((0 ≤ lead_steps)%Z →
     values tgt = drop k (values (sel_time test_years z500))
     ∧ time tgt = drop k (time (sel_time test_years z500)))
  ∧ ((0 < lead_steps)%Z → length (X_test s) = length (values tgt)).
Proof.
  intros s E tgt k. unfold tgt, target_from, target, isel_time.
  cbn [values time]. split; [|split].
  - unfold s, get_train_valid_test_dataset. cbn [Y_test mean std].
    by rewrite Y_of_map_values, expand_last_map.
  - intros Hk. by rewrite !slice_from.
  - intros Hk. unfold s, get_train_valid_test_dataset. cbn [X_test].
    rewrite X_of_positive, slice_from by lia.
    rewrite length_map, length_take, length_drop. lia.
Qed.

Lemma evaluation_target_is_Y_test_witness :
  let s := get_train_valid_test_dataset 1 Samples.train_and_test in
  length (X_test s) = length (values (target_from 1 Samples.train_and_test))
  ∧ time (target_from 1 Samples.train_and_test)
    = drop 1 (time (sel_time test_years Samples.train_and_test)).
Proof.
  intros s.
  destruct (evaluation_target_is_Y_test 1 Samples.train_and_test)
    as (_ & Hdrop & Hlen).
  split; [by apply Hlen|]. by apply Hdrop.
Defined.

(** ** The climatology forecast from the table of the same dataset *)

Section climatology_forecast.


End climatology_forecast.



